(** * musicalbeeps: the note resolver, the waveform synthesizer and the tune
    sequencer of [musicalbeeps/beepsplayer.py]

    The development is a shallow embedding of class [Player].

    Modelling decisions.
    - A Python [str] is a [string] whose characters are code points below 256.
    - Frequencies and samples are idealised as real numbers ([R]).
      A duration is a [pyfloat]: an infinity, NaN, or a finite value given
      by its exact rational ([Q]), injected into [R] by [Q2R] where it
      enters a sample.  The product [duration * self.rate], which decides
      the number of samples, is rounded to the nearest double, ties to
      even, as the multiplication of two doubles is ([round_double]); so
      is the value [float] reads from a text.  The volume is a rational.
    - The attributes [rate], [fade], [_fade_in], [_fade_out] and
      [note_frequencies] are assigned once in [__init__] and never again;
      they are constants here.  The other attributes are the fields of the
      record [Player].
    - What a method prints, plays or sleeps is appended to the field [log].
    - A Python exception is a value of [exn]; a method that can raise
      returns a [result]. *)

From Stdlib Require Import String Ascii List Bool Arith ZArith QArith Qround.
From Stdlib Require Decimal DecimalString.
From Stdlib Require Import Reals Qreals Lra Lia.
Import ListNotations.

Close Scope Q_scope.
Close Scope R_scope.
Open Scope string_scope.
Open Scope nat_scope.

(** ** Exceptions *)

Inductive exn : Type :=
| ValueError (msg : string)
| TypeError (msg : string)
| OverflowError (msg : string)
| FileNotFoundError (path : string).

Inductive result (A : Type) : Type :=
| Ok (a : A)
| Raise (e : exn).

Arguments Ok {A} a.
Arguments Raise {A} e.

(** ** Strings, as the methods of [str] the code uses *)

Module Str.

(** [str.isspace] on one character, for code points below 256. *)
Definition is_space (c : ascii) : bool :=
  let n := nat_of_ascii c in
  ((9 <=? n) && (n <=? 13)) || ((28 <=? n) && (n <=? 32))
  || (n =? 133) || (n =? 160).

Fixpoint lstrip (s : string) : string :=
  match s with
  | String c s' => if is_space c then lstrip s' else s
  | EmptyString => EmptyString
  end.

Fixpoint rev_onto (s acc : string) : string :=
  match s with
  | String c s' => rev_onto s' (String c acc)
  | EmptyString => acc
  end.

Definition rev (s : string) : string := rev_onto s "".

Definition rstrip (s : string) : string := rev (lstrip (rev s)).

(** [s.strip()] *)
Definition strip (s : string) : string := rstrip (lstrip s).

(** [s.split(sep)] for a separator of one character: every occurrence
    separates, and the result has one more piece than there are
    separators. *)
Fixpoint split (sep : ascii) (s : string) : list string :=
  match s with
  | EmptyString => [""]
  | String c s' =>
      if Ascii.eqb c sep then "" :: split sep s'
      else match split sep s' with
           | piece :: pieces => String c piece :: pieces
           | [] => [String c ""]
           end
  end.

(** [s.upper()] on the letters a-z.  Among the code points below 256 no
    other character has an upper case in A-Z, so a table lookup of the
    result is decided by this definition. *)
Definition upper_char (c : ascii) : ascii :=
  let n := nat_of_ascii c in
  if (97 <=? n) && (n <=? 122) then ascii_of_nat (n - 32) else c.

Fixpoint upper (s : string) : string :=
  match s with
  | String c s' => String (upper_char c) (upper s')
  | EmptyString => EmptyString
  end.

Definition digit_value (c : ascii) : option Z :=
  let n := nat_of_ascii c in
  if (48 <=? n) && (n <=? 57) then Some (Z.of_nat (n - 48)) else None.

Fixpoint digits_value (acc : Z) (s : string) : option Z :=
  match s with
  | EmptyString => Some acc
  | String c s' =>
      match digit_value c with
      | Some d => digits_value (10 * acc + d)%Z s'
      | None => None
      end
  end.

(** [int(s)]: [None] stands for the [ValueError].  Surrounding white
    space and a sign are accepted; the underscores Python allows between
    digits are not modelled (the resolver passes one character or the
    default ["4"]).  Among the code points below 256 the decimal digits
    are [0]-[9]; the digits of other scripts, which [int] reads too, lie
    beyond the strings modelled here. *)
Definition py_int (s : string) : option Z :=
  match strip s with
  | EmptyString => None
  | String "+" EmptyString => None
  | String "-" EmptyString => None
  | String "+" ds => digits_value 0%Z ds
  | String "-" ds => option_map Z.opp (digits_value 0%Z ds)
  | ds => digits_value 0%Z ds
  end.

End Str.

(** ** Floats used as durations *)

Inductive pyfloat : Type :=
| Finite (q : Q)
| Inf (negative : bool)
| NaN.

Definition Qltb (x y : Q) : bool := negb (Qle_bool y x).

(** [int(x)] of a finite float: truncation toward zero. *)
Definition trunc (x : Q) : Z := Z.quot (Qnum x) (Z.pos (Qden x)).

(** *** Rounding to a double

    A double is [m * 2^u] with [|m| < 2^53] and [-1074 <= u]; its
    magnitude is below [2^1024]. *)

Module Float.

(** [floor (log2 (n / d))] *)
Definition ilog2 (n d : positive) : Z :=
  let k := (Z.log2 (Z.pos n) - Z.log2 (Z.pos d))%Z in
  if (Z.pos d * 2 ^ Z.max k 0 <=? Z.pos n * 2 ^ Z.max (- k) 0)%Z then k
  else (k - 1)%Z.

(** [n / d] rounded to the nearest integer, ties to the even one. *)
Definition round_half_even (n d : Z) : Z :=
  let q := (n / d)%Z in
  match (2 * (n mod d) ?= d)%Z with
  | Lt => q
  | Gt => (q + 1)%Z
  | Eq => if Z.even q then q else (q + 1)%Z
  end.

(** The double nearest to [n / d]; [None] when it is out of range. *)
Definition round_positive (n d : positive) : option Q :=
  let e := ilog2 n d in
  let u := Z.max (e - 52) (-1074) in
  let m := round_half_even (Z.pos n * 2 ^ Z.max (- u) 0)
                           (Z.pos d * 2 ^ Z.max u 0) in
  if (2 ^ 1024 <=? m * 2 ^ Z.max u 0)%Z then None
  else Some (Qmake (m * 2 ^ Z.max u 0) (Z.to_pos (2 ^ Z.max (- u) 0))).

End Float.

(** The double nearest to a rational, ties to even; a rational that is a
    double is returned as it is written. *)
Definition round_double (q : Q) : pyfloat :=
  match Qnum q with
  | Z0 => Finite q
  | Z.pos n =>
      match Float.round_positive n (Qden q) with
      | Some r => if Qeq_bool q r then Finite q else Finite r
      | None => Inf false
      end
  | Z.neg n =>
      match Float.round_positive n (Qden q) with
      | Some r => if Qeq_bool q (Qopp r) then Finite q else Finite (Qopp r)
      | None => Inf true
      end
  end.

(** [x * y] on floats. *)
Definition float_mul (x y : pyfloat) : pyfloat :=
  match x, y with
  | NaN, _ | _, NaN => NaN
  | Finite a, Finite b => round_double (a * b)%Q
  | Inf s, Finite b | Finite b, Inf s =>
      if Qeq_bool b 0 then NaN else Inf (xorb s (Qltb b 0))
  | Inf s, Inf s' => Inf (xorb s s')
  end.

(** [int(x)] on a float. *)
Definition int_of_float (x : pyfloat) : result Z :=
  match x with
  | Finite q => Ok (trunc q)
  | Inf _ => Raise (OverflowError "cannot convert float infinity to integer")
  | NaN => Raise (ValueError "cannot convert float NaN to integer")
  end.

(** ** The player *)

(** What the player does to the outside world. *)
Inductive message : Type :=
| Pausing (duration : pyfloat)
| Playing (note : string) (frequency : R) (duration : pyfloat).

Inductive event : Type :=
| Stderr (line : string)
| Stdout (msg : message)
| WaitPlayObj
| PlayBuffer (audio : list Z) (num_channels bytes_per_sample sample_rate : Z)
| Sleep (seconds : Q).

Record Player : Type := mkPlayer {
  volume : Q;
  mute_output : bool;
  freq : R;
  _valid_note : bool;
  _play_obj : option (list Z);
  _destructor_sleep : pyfloat;
  log : list event
}.

Definition rate : Z := 44100.
Definition fade : nat := 800.

(** A float as a real number, where it enters a sample.  The synthesizer
    reads the duration so only after [int] has accepted the product, that
    is on a finite duration. *)
Definition real_of_float (x : pyfloat) : R :=
  match x with
  | Finite q => Q2R q
  | _ => 0%R
  end.

(** [int(duration * self.rate)] *)
Definition sample_count (duration : pyfloat) : result Z :=
  int_of_float (float_mul duration (Finite (inject_Z rate))).

(** Frequencies for the lowest octave. *)
Definition note_frequencies : list (string * R) :=
  [ ("A", 27.50000%R); ("B", 30.86771%R); ("C", 16.35160%R);
    ("D", 18.35405%R); ("E", 20.60172%R); ("F", 21.82676%R);
    ("G", 24.49971%R) ].

Fixpoint lookup (key : string) (d : list (string * R)) : option R :=
  match d with
  | [] => None
  | (k, v) :: d' => if String.eqb key k then Some v else lookup key d'
  end.

Definition with_freq (f : R) (p : Player) : Player :=
  mkPlayer (volume p) (mute_output p) f (_valid_note p) (_play_obj p)
           (_destructor_sleep p) (log p).

Definition with_valid_note (b : bool) (p : Player) : Player :=
  mkPlayer (volume p) (mute_output p) (freq p) b (_play_obj p)
           (_destructor_sleep p) (log p).

Definition with_play_obj (o : option (list Z)) (p : Player) : Player :=
  mkPlayer (volume p) (mute_output p) (freq p) (_valid_note p) o
           (_destructor_sleep p) (log p).

Definition with_destructor_sleep (d : pyfloat) (p : Player) : Player :=
  mkPlayer (volume p) (mute_output p) (freq p) (_valid_note p) (_play_obj p)
           d (log p).

Definition emit (e : event) (p : Player) : Player :=
  mkPlayer (volume p) (mute_output p) (freq p) (_valid_note p) (_play_obj p)
           (_destructor_sleep p) (log p ++ [e]).

(** [Player.__init__] *)
Definition init (volume : Q) (mute_output : bool) : result Player :=
  if Qltb volume 0%Q || Qltb 1%Q volume then
    Raise (ValueError "Volume must be a float between 0 and 1")
  else Ok (mkPlayer volume mute_output 0%R true None (Finite 0%Q) []).

(** *** The frequency resolver *)

Definition invalid_note_line (s : string) : string :=
  "Error: invalid note: '" ++ s ++ "'".
Definition invalid_octave_line (s : string) : string :=
  "Error: invalid octave: '" ++ s ++ "'".
Definition invalid_symbol_line (s : string) : string :=
  "Error: invalid symbol: '" ++ s ++ "'".
Definition invalid_shape_line (s : string) : string :=
  "Errror: invalid note: '" ++ s ++ "'".

(** [Player.__set_base_frequency] *)
Definition set_base_frequency (note : string) (p : Player) : Player :=
  let letter := Str.upper (substring 0 1 note) in
  match lookup letter note_frequencies with
  | Some f => with_freq f p
  | None =>
      emit (Stderr (invalid_note_line (substring 0 1 note)))
           (with_valid_note false p)
  end.

(** [Player.__set_octave]; the default argument is ["4"]. *)
Definition set_octave (octave : string) (p : Player) : Player :=
  if negb (_valid_note p) then p
  else
    let failed :=
      emit (Stderr (invalid_octave_line octave)) (with_valid_note false p) in
    match Str.py_int octave with
    | Some octaveValue =>
        if (octaveValue <? 0)%Z || (octaveValue >? 8)%Z then failed
        else with_freq (freq p * IZR (2 ^ octaveValue))%R p
    | None => failed
    end.

(** [2 ** (1.0 / 12.0)] *)
Definition semitone : R := Rpower 2 (1 / 12)%R.

(** [Player.__set_semitone] *)
Definition set_semitone (symbol : string) (p : Player) : Player :=
  if negb (_valid_note p) then p
  else if String.eqb symbol "#" then with_freq (freq p * semitone)%R p
  else if String.eqb symbol "b" then with_freq (freq p / semitone)%R p
  else emit (Stderr (invalid_symbol_line symbol)) (with_valid_note false p).

(** [Player.__calc_frequency] *)
Definition calc_frequency (note : string) (p : Player) : Player :=
  let p := set_base_frequency note p in
  if (String.length note =? 1) then set_octave "4" p
  else if (String.length note =? 2) then
    if String.eqb (substring 1 1 note) "#"
       || String.eqb (substring 1 1 note) "b"
    then set_semitone (substring 1 1 note) (set_octave "4" p)
    else set_octave (substring 1 1 note) p
  else if (String.length note =? 3) then
    set_semitone (substring 2 1 note) (set_octave (substring 1 1 note) p)
  else if _valid_note p then
    with_valid_note false (emit (Stderr (invalid_shape_line note)) p)
  else p.

(** *** numpy, as far as the synthesizer uses it *)

Module Np.

Inductive ndarray : Type :=
| Scalar (x : R)
| Vec (v : list R)
| Mat (rows : list (list R)).

(** [np.linspace(start, stop, num, False)] *)
Definition linspace (start stop : R) (num : Z) : result (list R) :=
  if (num <? 0)%Z then
    Raise (ValueError
      ("Number of samples, " ++ DecimalString.NilZero.string_of_int (Z.to_int num)
       ++ ", must be non-negative."))
  else
    let step := ((stop - start) / IZR num)%R in
    Ok (map (fun j => (INR j * step + start)%R) (seq 0 (Z.to_nat num))).

(** [np.arange(start, stop, step)] on floats: [ceil((stop - start) / step)]
    values [start + i * step]. *)
Definition arange (start stop step : Q) : list Q :=
  map (fun i => (start + inject_Z (Z.of_nat i) * step)%Q)
      (seq 0 (Z.to_nat (Qceiling ((stop - start) / step)%Q))).

(** [np.zeros(n)] *)
Definition zeros (n : nat) : list R := repeat 0%R n.

Definition rows_of (a : ndarray) : list (list R) :=
  match a with
  | Scalar x => [[x]]
  | Vec v => [v]
  | Mat rows => rows
  end.

(** [np.vstack([a, row])] for rows of one width. *)
Definition vstack (a : ndarray) (row : list R) : ndarray :=
  Mat (rows_of a ++ [row]).

Definition sum (v : list R) : R := fold_left Rplus v 0%R.

(** [np.mean(a, axis=0)]: a vector gives its mean as a scalar, a matrix
    the vector of its column means. *)
Definition mean_axis0 (a : ndarray) : ndarray :=
  match a with
  | Scalar x => Scalar x
  | Vec v => Scalar (sum v / INR (length v))%R
  | Mat rows =>
      Vec (map (fun j =>
                  (sum (map (fun row => nth j row 0%R) rows)
                   / INR (length rows))%R)
               (seq 0 (length (hd [] rows))))
  end.

(** [np.max] of a vector; it raises on an empty one. *)
Definition amax (v : list R) : result R :=
  match v with
  | [] =>
      Raise (ValueError
        "zero-size array to reduction operation maximum which has no identity")
  | x :: xs => Ok (fold_left Rmax xs x)
  end.

(** Element-wise product of two vectors of one length. *)
Definition multiply (v w : list R) : list R :=
  map (fun xy => (fst xy * snd xy)%R) (combine v w).

(** [audio[:k] *= w] *)
Definition imul_head (k : nat) (w audio : list R) : list R :=
  multiply (firstn k audio) w ++ skipn k audio.

(** [audio[-k:] *= w] *)
Definition imul_tail (k : nat) (w audio : list R) : list R :=
  firstn (length audio - k) audio
  ++ multiply (skipn (length audio - k) audio) w.

(** Truncation of a real toward zero. *)
Definition Rtrunc (x : R) : Z :=
  if Rle_dec 0 x then Int_part x else (- Int_part (- x))%Z.

(** [astype(np.int16)] of a value within the range of the type. *)
Definition astype_int16 (x : R) : Z := Rtrunc x.

(** [np.concatenate(arrays)] *)
Definition concatenate (arrays : list (list Z)) : result (list Z) :=
  match arrays with
  | [] => Raise (ValueError "need at least one array to concatenate")
  | _ => Ok (concat arrays)
  end.

End Np.

(** *** The waveform synthesizer *)

Definition _fade_in : list Q := Np.arange 0 1 (1 / inject_Z (Z.of_nat fade)).
Definition _fade_out : list Q :=
  Np.arange 1 0 (- (1 / inject_Z (Z.of_nat fade))).

(** [np.linspace(-10, 2, num=5)] *)
Definition default_multipliers : list R := [-10; -7; -4; -1; 2]%R.

(** The statement [if len(audio) > self.fade: ...] of
    [generate_note_waveform]. *)
Definition fade_step (audio : list R) : list R :=
  if fade <? length audio then
    Np.imul_tail fade (map Q2R _fade_out)
                 (Np.imul_head fade (map Q2R _fade_in) audio)
  else audio.

(** [Player.generate_note_waveform] *)
Definition generate_note_waveform (p : Player) (duration : pyfloat)
    (wave_variation_mutlipliers : list R) : result (list Z) :=
  match sample_count duration with
  | Raise e => Raise e
  | Ok num =>
      match Np.linspace 0 (real_of_float duration) num with
      | Raise e => Raise e
      | Ok t =>
          let waves :=
            fold_left
              (fun waves i =>
                 Np.vstack waves
                   (map (fun tj => sin (2 * PI * freq p * tj * i)%R) t))
              wave_variation_mutlipliers
              (Np.Vec (Np.zeros (length t))) in
          match Np.mean_axis0 waves with
          | Np.Vec audio =>
              match Np.amax (map Rabs audio) with
              | Raise e => Raise e
              | Ok peak =>
                  let audio := map (fun x => (x * (32767 / peak))%R) audio in
                  let audio := map (fun x => (x * Q2R (volume p))%R) audio in
                  Ok (map Np.astype_int16 (fade_step audio))
              end
          | _ =>
              Raise (TypeError "object of type 'numpy.float64' has no len()")
          end
      end
  end.

(** *** Playback *)

(** [Player.__wait_for_prev_sound]: the loop on [is_playing()] is one
    event; the device is assumed to finish. *)
Definition wait_for_prev_sound (p : Player) : Player :=
  match _play_obj p with
  | Some _ => emit WaitPlayObj p
  | None => p
  end.

(** [Player.__write_stream]; [audio = None] is the default argument. *)
Definition write_stream (duration : pyfloat) (audio : option (list Z))
    (p : Player) : Player * result unit :=
  let synthesized :=
    match audio with
    | None => generate_note_waveform p duration default_multipliers
    | Some a => Ok a
    end in
  match synthesized with
  | Raise e => (p, Raise e)
  | Ok a =>
      let p := wait_for_prev_sound p in
      (with_play_obj (Some a) (emit (PlayBuffer a 1 2 rate) p), Ok tt)
  end.

(** [Player.__print_played_note] *)
Definition print_played_note (note : string) (duration : pyfloat)
    (p : Player) : Player :=
  if mute_output p || negb (_valid_note p) then p
  else if String.eqb note "pause" then emit (Stdout (Pausing duration)) p
  else emit (Stdout (Playing note (freq p) duration)) p.

(** [time.sleep(secs)].  CPython also raises [OverflowError] on a finite
    duration beyond the range of its C time type (about 9.2e9 seconds in
    magnitude); that limit is not modelled. *)
Definition time_sleep (secs : pyfloat) (p : Player) : Player * result unit :=
  match secs with
  | Finite d =>
      if Qltb d 0 then
        (p, Raise (ValueError "sleep length must be non-negative"))
      else (emit (Sleep d) p, Ok tt)
  | Inf true => (p, Raise (ValueError "sleep length must be non-negative"))
  | Inf false =>
      (p, Raise (OverflowError "timestamp too large to convert to C _PyTime_t"))
  | NaN => (p, Raise (ValueError "Invalid value NaN (not a number)"))
  end.

(** [Player.play_note] *)
Definition play_note (note : string) (duration : pyfloat) (p : Player)
    : Player * result unit :=
  let p := with_valid_note true p in
  if String.eqb note "pause" then
    let p := wait_for_prev_sound p in
    let p := print_played_note note duration p in
    match time_sleep duration p with
    | (p, Raise e) => (p, Raise e)
    | (p, Ok _) => (with_destructor_sleep (Finite 0) p, Ok tt)
    end
  else
    let p := calc_frequency note p in
    if _valid_note p then
      match write_stream duration None p with
      | (p, Raise e) => (p, Raise e)
      | (p, Ok _) =>
          let p := print_played_note note duration p in
          (with_destructor_sleep duration p, Ok tt)
      end
    else (p, Ok tt).

(** *** The tune sequencer *)

Section Tune.

(** The builtin [float] on a [str]; [None] stands for its [ValueError]. *)
Variable float_of_str : string -> option pyfloat.

(** The lines of the file at a path, as iterating the open file yields
    them; [None] when [open] fails. *)
Variable read_lines : string -> option (list string).

(** The two [try] statements of the loop body: token and duration of a
    stripped line. *)
Definition parse_line (line : string) : string * pyfloat :=
  match Str.split ":" line with
  | [note; duration] =>
      (note,
       match float_of_str duration with
       | Some d => d
       | None => Finite 0.5
       end)
  | _ => (line, Finite 0.5)
  end.

(** The [for line in lines] loop of [generate_tune_waveform], on the
    lines still to read. *)
Fixpoint tune_loop (wave_variation_mutlipliers : list R)
    (lines : list string) (p : Player) (notes_waves : list (list Z))
    : Player * result (list (list Z)) :=
  match lines with
  | [] => (p, Ok notes_waves)
  | line :: lines' =>
      let line := Str.strip line in
      if 0 <? String.length line then
        let (note, duration) := parse_line line in
        let p := calc_frequency note p in
        if _valid_note p then
          match generate_note_waveform p duration
                  wave_variation_mutlipliers with
          | Ok wave =>
              tune_loop wave_variation_mutlipliers lines' p
                        (notes_waves ++ [wave])
          | Raise e => (p, Raise e)
          end
        else tune_loop wave_variation_mutlipliers lines' p notes_waves
      else tune_loop wave_variation_mutlipliers lines' p notes_waves
  end.

(** [Player.generate_tune_waveform] *)
Definition generate_tune_waveform (lines : list string)
    (wave_variation_mutlipliers : list R) (p : Player)
    : Player * result (list Z) :=
  match tune_loop wave_variation_mutlipliers lines p [] with
  | (p, Raise e) => (p, Raise e)
  | (p, Ok notes_waves) => (p, Np.concatenate notes_waves)
  end.

(** The values [play_tune] can be called with. *)
Inductive pyvalue : Type :=
| PyNone
| PyInt (n : Z)
| PyStr (s : string)
| PyList (items : list string)
| PyTuple (items : list string).

(** [Player.play_tune] *)
Definition play_tune (tune : pyvalue) (wave_variation_mutlipliers : list R)
    (p : Player) : Player * result unit :=
  let generated :=
    match tune with
    | PyStr path =>
        match read_lines path with
        | Some f => generate_tune_waveform f wave_variation_mutlipliers p
        | None => (p, Raise (FileNotFoundError path))
        end
    | PyList lines =>
        generate_tune_waveform lines wave_variation_mutlipliers p
    | _ => (p, Raise (TypeError "tune must be a string or list"))
    end in
  match generated with
  | (p, Raise e) => (p, Raise e)
  | (p, Ok audio) => write_stream (Finite 0.5) (Some audio) p
  end.

End Tune.

(** [Player.__del__] *)
Definition del (p : Player) : Player * result unit :=
  time_sleep (_destructor_sleep p) p.

(** [default_player = Player()] *)
Definition default_player : Player :=
  mkPlayer 0.3 false 0%R true None (Finite 0) [].

(** ** A reader of plain decimal numerals

    [float_of_decimal] agrees with the builtin [float] on the numerals
    [digits], [digits.digits], [digits.] and [.digits] with an optional
    sign and surrounding white space: it gives the double nearest to the
    numeral, an infinity when that is out of range.  It yields [None] on
    every other
    text; [float] reads some of those (exponents, [inf], [nan],
    underscores between digits) and raises on the rest.  It instantiates
    [float_of_str] on the concrete tunes below, whose duration texts are
    plain numerals or no numbers at all. *)

Definition float_of_decimal (s : string) : option pyfloat :=
  let body sign ds :=
    match Str.split "." ds with
    | [whole] =>
        match whole, Str.digits_value 0 whole with
        | String _ _, Some n => Some (round_double (inject_Z (sign * n)))
        | _, _ => None
        end
    | [whole; frac] =>
        match (whole ++ frac)%string, Str.digits_value 0 (whole ++ frac) with
        | String _ _, Some n =>
            Some (round_double
                    (Qmake (sign * n)
                           (Z.to_pos (10 ^ Z.of_nat (String.length frac)))))
        | _, _ => None
        end
    | _ => None
    end in
  match Str.strip s with
  | String "+" ds => body 1%Z ds
  | String "-" ds => body (-1)%Z ds
  | ds => body 1%Z ds
  end.

(** ** The notes the resolver accepts, in the words of the specification *)

Inductive accidental : Type := Natural | Sharp | Flat.

Definition digit_text (octave : Z) : string :=
  String (ascii_of_nat (48 + Z.to_nat octave)) "".

(** A token is a letter, then an optional octave digit, then an optional
    accidental. *)
Definition token (letter : ascii) (octave : option Z) (a : accidental)
    : string :=
  String letter
    (match octave with Some o => digit_text o | None => "" end
     ++ match a with Natural => "" | Sharp => "#" | Flat => "b" end).

(** An octave, when present, is an integer from 0 to 8. *)
Definition valid_octave (octave : option Z) : Prop :=
  match octave with
  | Some o => (0 <= o <= 8)%Z
  | None => True
  end.

(** [table[letter] * 2^octave], times or divided by [2^(1/12)]; the octave
    defaults to 4. *)
Definition tone_frequency (base : R) (octave : option Z) (a : accidental)
    : R :=
  let f := (base * IZR (2 ^ match octave with Some o => o | None => 4 end))%R in
  match a with
  | Natural => f
  | Sharp => (f * Rpower 2 (1 / 12))%R
  | Flat => (f / Rpower 2 (1 / 12))%R
  end.

(** ** Lines of a tune, in the words of the specification *)

(** Whether a character occurs in a text. *)
Fixpoint contains (c : ascii) (s : string) : bool :=
  match s with
  | EmptyString => false
  | String c' s' => Ascii.eqb c' c || contains c s'
  end.

(** A line split on the first separator: the text before it and, when
    there is one, the text after it. *)
Fixpoint split_first (sep : ascii) (s : string) : string * option string :=
  match s with
  | EmptyString => ("", None)
  | String c s' =>
      if Ascii.eqb c sep then ("", Some s')
      else let (a, b) := split_first sep s' in (String c a, b)
  end.

(** Token and duration of a line split on the first [:]; the duration is
    0.5 when its text is absent or is no float. *)
Definition spec_parse_line (float_of_str : string -> option pyfloat)
    (line : string) : string * pyfloat :=
  let (note, duration) := split_first ":" line in
  (note,
   match duration with
   | Some text =>
       match float_of_str text with
       | Some d => d
       | None => Finite 0.5
       end
   | None => Finite 0.5
   end).

(** The octave text is no integer, or an integer outside 0-8. *)
Definition bad_octave (octave : string) : Prop :=
  match Str.py_int octave with
  | Some v => (v < 0 \/ 8 < v)%Z
  | None => True
  end.

(** The resolver reports a failure of the overall shape, with the token. *)
Definition reports_shape_failure (note : string) (p : Player) : Prop :=
  log (calc_frequency note p)
  = (log p ++ [Stderr (invalid_shape_line note)])%list.

(** ** What a call leaves of the player *)

(** The attributes the resolver and the sequencer never assign. *)
Definition keeps_frame (p q : Player) : Prop :=
  volume q = volume p /\ mute_output q = mute_output p
  /\ _play_obj q = _play_obj p
  /\ _destructor_sleep q = _destructor_sleep p.

(** Nothing printed, the flag as it was. *)
Definition quiet_step (p q : Player) : Prop :=
  keeps_frame p q /\ _valid_note q = _valid_note p /\ log q = log p.

(** One line printed on the error stream, the flag down. *)
Definition failing_step (p q : Player) : Prop :=
  keeps_frame p q /\ _valid_note q = false
  /\ exists line, log q = (log p ++ [Stderr line])%list.

(** An event other than a line on the standard output. *)
Definition not_stdout (e : event) : Prop :=
  match e with
  | Stdout _ => False
  | _ => True
  end.

(** A line on the error stream. *)
Definition is_stderr (e : event) : Prop :=
  match e with
  | Stderr _ => True
  | _ => False
  end.

(** ** The synthesizer in two stages *)

(** The statements of [generate_note_waveform] up to [np.mean]: the
    average of the zero row and of one sine row per multiplier, on the
    time axis [t]. *)
Definition averaged_waves (p : Player) (t : list R)
    (wave_variation_mutlipliers : list R) : Np.ndarray :=
  Np.mean_axis0
    (fold_left
       (fun waves i =>
          Np.vstack waves
            (map (fun tj => sin (2 * PI * freq p * tj * i)%R) t))
       wave_variation_mutlipliers
       (Np.Vec (Np.zeros (length t)))).

(** The averaged vector after [audio *= 32767 / np.max(np.abs(audio))] and
    [audio *= self.volume]: the buffer the fade is applied to. *)
Definition scaled_waves (p : Player) (wave : list R) (peak : R) : list R :=
  map (fun x => (x * Q2R (volume p))%R)
      (map (fun x => (x * (32767 / peak))%R) wave).

(** The statements of [generate_note_waveform] after [np.mean], on the
    averaged vector: normalization to the peak, volume, fade and
    conversion to 16-bit integers. *)
Definition normalize_and_quantize (p : Player) (audio : list R)
    : result (list Z) :=
  match Np.amax (map Rabs audio) with
  | Raise e => Raise e
  | Ok peak =>
      let audio := map (fun x => (x * (32767 / peak))%R) audio in
      let audio := map (fun x => (x * Q2R (volume p))%R) audio in
      Ok (map Np.astype_int16 (fade_step audio))
  end.

(** ** Lines that give a note *)

(** The sample count of the duration a line holds; 0 when [int] raises
    on it. *)
Definition line_sample_count (float_of_str : string -> option pyfloat)
    (line : string) : Z :=
  match sample_count (snd (parse_line float_of_str (Str.strip line))) with
  | Ok num => num
  | Raise _ => 0%Z
  end.

(** A line that is not blank, whose token resolves on a raised flag and
    whose duration holds at least one sample. *)
Definition playable_line (float_of_str : string -> option pyfloat)
    (line : string) : Prop :=
  Str.strip line <> ""
  /\ (forall q, _valid_note q = true ->
        _valid_note
          (calc_frequency (fst (parse_line float_of_str (Str.strip line))) q)
        = true)
  /\ (0 < line_sample_count float_of_str line)%Z.

(** The sample counts of the lines of a tune, added up. *)
Fixpoint total_samples (float_of_str : string -> option pyfloat)
    (lines : list string) : Z :=
  match lines with
  | [] => 0
  | line :: lines' =>
      (line_sample_count float_of_str line
       + total_samples float_of_str lines')%Z
  end.

(** A line the loop reads, as opposed to a blank one. *)
Definition nonblank (line : string) : bool :=
  0 <? String.length (Str.strip line).

(** ** The factors of the fade *)

(** The factor the fade-in applies to sample [i]: the ramp on the first
    [fade] samples, 1 elsewhere. *)
Definition fade_in_gain (i : nat) : R := nth i (map Q2R _fade_in) 1%R.

(** The factor the fade-out applies to sample [i] of a buffer of [n]
    samples: the ramp on the last [fade] samples, 1 elsewhere. *)
Definition fade_out_gain (n i : nat) : R :=
  if (i <? n - fade)%nat then 1%R
  else nth (i - (n - fade)) (map Q2R _fade_out) 1%R.

(** * Properties *)

(** ** The frequency resolver *)

Lemma substring_0_0 (s : string) : substring 0 0 s = "".
Proof. destruct s; reflexivity. Qed.

Lemma set_base_frequency_letter (c : ascii) (rest : string) (base : R)
    (p : Player) :
  lookup (Str.upper (String c "")) note_frequencies = Some base ->
  set_base_frequency (String c rest) p = with_freq base p.
Proof.
  intros H. unfold set_base_frequency.
  cbn [substring]. rewrite substring_0_0, H. reflexivity.
Qed.

Lemma set_base_frequency_no_letter (note : string) (p : Player) :
  lookup (Str.upper (substring 0 1 note)) note_frequencies = None ->
  set_base_frequency note p =
  emit (Stderr (invalid_note_line (substring 0 1 note)))
       (with_valid_note false p).
Proof. intros H. unfold set_base_frequency. rewrite H. reflexivity. Qed.

Lemma set_octave_invalid (octave : string) (p : Player) :
  _valid_note p = false -> set_octave octave p = p.
Proof. intros H. unfold set_octave. rewrite H. reflexivity. Qed.

Lemma set_semitone_invalid (symbol : string) (p : Player) :
  _valid_note p = false -> set_semitone symbol p = p.
Proof. intros H. unfold set_semitone. rewrite H. reflexivity. Qed.

Lemma set_base_frequency_keeps_invalid (note : string) (p : Player) :
  _valid_note p = false -> _valid_note (set_base_frequency note p) = false.
Proof.
  intros H. unfold set_base_frequency.
  destruct (lookup _ note_frequencies); simpl; auto.
Qed.

(** The flag is never set back: a player that enters the resolver with
    [_valid_note = False] leaves it so, whatever the token. *)
Lemma calc_frequency_keeps_invalid (note : string) (p : Player) :
  _valid_note p = false -> _valid_note (calc_frequency note p) = false.
Proof.
  intros H. apply (set_base_frequency_keeps_invalid note) in H.
  unfold calc_frequency.
  set (q := set_base_frequency note p) in *.
  destruct (String.length note =? 1); [now rewrite set_octave_invalid|].
  destruct (String.length note =? 2).
  { destruct (_ || _);
      [rewrite set_semitone_invalid|]; now rewrite set_octave_invalid. }
  destruct (String.length note =? 3).
  { rewrite set_semitone_invalid; now rewrite set_octave_invalid. }
  now rewrite H.
Qed.

Lemma set_octave_fails (octave : string) (p : Player) :
  bad_octave octave -> _valid_note (set_octave octave p) = false.
Proof.
  unfold bad_octave, set_octave. intros H.
  destruct (_valid_note p) eqn:Hv; simpl; [|assumption].
  destruct (Str.py_int octave) as [v|]; [|reflexivity].
  destruct (Z.ltb_spec v 0); simpl; [reflexivity|].
  destruct (Z.gtb_spec v 8); simpl; [reflexivity | lia].
Qed.

Lemma set_semitone_fails (symbol : string) (p : Player) :
  symbol <> "#" -> symbol <> "b" ->
  _valid_note (set_semitone symbol p) = false.
Proof.
  intros Hs Hb. unfold set_semitone.
  destruct (_valid_note p) eqn:Hv; simpl; [|assumption].
  apply String.eqb_neq in Hs, Hb. now rewrite Hs, Hb.
Qed.

Lemma set_semitone_keeps_invalid (symbol : string) (p : Player) :
  _valid_note p = false -> _valid_note (set_semitone symbol p) = false.
Proof. intros H. now rewrite set_semitone_invalid. Qed.

(** Resolution fails, by the flag and without an exception, on a letter
    outside the table, on an octave outside 0-8, on an accidental other
    than [#] and [b], and on a token of a length other than 1, 2 and 3. *)
Lemma invalid_token_fails (note : string) (p : Player) :
  (lookup (Str.upper (substring 0 1 note)) note_frequencies = None ->
   _valid_note (calc_frequency note p) = false)
  /\ (String.length note = 2 ->
      substring 1 1 note <> "#" -> substring 1 1 note <> "b" ->
      bad_octave (substring 1 1 note) ->
      _valid_note (calc_frequency note p) = false)
  /\ (String.length note = 3 -> bad_octave (substring 1 1 note) ->
      _valid_note (calc_frequency note p) = false)
  /\ (String.length note = 3 ->
      substring 2 1 note <> "#" -> substring 2 1 note <> "b" ->
      _valid_note (calc_frequency note p) = false)
  /\ (String.length note <> 1 -> String.length note <> 2 ->
      String.length note <> 3 ->
      _valid_note (calc_frequency note p) = false).
Proof.
  split; [|split; [|split; [|split]]].
  - intros H.
    assert (Hq : _valid_note (set_base_frequency note p) = false)
      by now rewrite set_base_frequency_no_letter.
    unfold calc_frequency.
    set (q := set_base_frequency note p) in *.
    destruct (String.length note =? 1); [now rewrite set_octave_invalid|].
    destruct (String.length note =? 2).
    { destruct (_ || _);
        [rewrite set_semitone_invalid|]; now rewrite set_octave_invalid. }
    destruct (String.length note =? 3).
    { rewrite set_semitone_invalid; now rewrite set_octave_invalid. }
    now rewrite Hq.
  - intros Hl Hs Hb Ho. unfold calc_frequency. rewrite Hl.
    apply String.eqb_neq in Hs, Hb.
    cbn [Nat.eqb]. rewrite Hs, Hb. cbn [orb].
    now apply set_octave_fails.
  - intros Hl Ho. unfold calc_frequency. rewrite Hl. cbn [Nat.eqb].
    apply set_semitone_keeps_invalid. now apply set_octave_fails.
  - intros Hl Hs Hb. unfold calc_frequency. rewrite Hl. cbn [Nat.eqb].
    now apply set_semitone_fails.
  - intros H1 H2 H3. apply Nat.eqb_neq in H1, H2, H3.
    unfold calc_frequency. rewrite H1, H2, H3.
    destruct (_valid_note (set_base_frequency note p)) eqn:E;
      [reflexivity | assumption].
Qed.

(** On a letter of the table, an octave digit from 0 to 8 and an optional
    accidental, in any of the four shapes, the resolver stores the tone
    frequency and changes nothing else. *)
Lemma calc_frequency_token (c : ascii) (base : R) (o : option Z)
    (a : accidental) (p : Player) :
  lookup (Str.upper (String c "")) note_frequencies = Some base ->
  valid_octave o ->
  _valid_note p = true ->
  calc_frequency (token c o a) p = with_freq (tone_frequency base o a) p.
Proof.
  intros Hc Ho Hv.
  assert (Hcases : o = None \/ exists z, o = Some z /\
            (z = 0 \/ z = 1 \/ z = 2 \/ z = 3 \/ z = 4 \/ z = 5 \/ z = 6
             \/ z = 7 \/ z = 8)%Z).
  { destruct o as [z|]; [right | left; reflexivity].
    exists z. split; [reflexivity|]. simpl in Ho. lia. }
  unfold calc_frequency.
  destruct Hcases as [-> | (z & -> & Hz)].
  - destruct a; unfold token; rewrite (set_base_frequency_letter _ _ _ _ Hc);
      unfold set_octave, set_semitone, with_freq; simpl; rewrite Hv;
      reflexivity.
  - repeat (destruct Hz as [-> | Hz]); try subst z;
      destruct a; unfold token; rewrite (set_base_frequency_letter _ _ _ _ Hc);
      unfold set_octave, set_semitone, with_freq; simpl; rewrite Hv;
      reflexivity.
Qed.

(** C1. On every valid token (a letter of the table in either case, an
    optional octave digit from 0 to 8, an optional accidental) the resolver
    succeeds and the frequency is [table[letter] * 2^octave], multiplied by
    [2^(1/12)] for a sharp and divided by it for a flat.  In particular
    ["A4"] resolves to 440 and ["C0"] to 16.3516, and the sharp and flat
    variants of a token are the plain frequency times and over [2^(1/12)]. *)
Theorem resolve_tone_frequency (c : ascii) (base : R) (o : option Z)
    (a : accidental) (p : Player) :
  lookup (Str.upper (String c "")) note_frequencies = Some base ->
  valid_octave o ->
  _valid_note p = true ->
  let resolve note := calc_frequency note p in
  _valid_note (resolve (token c o a)) = true
  /\ freq (resolve (token c o a)) = tone_frequency base o a
  /\ freq (resolve "A4") = 440%R
  /\ freq (resolve "C0") = 16.3516%R
  /\ freq (resolve (token c o Sharp))
     = (freq (resolve (token c o Natural)) * Rpower 2 (1 / 12))%R
  /\ freq (resolve (token c o Flat))
     = (freq (resolve (token c o Natural)) / Rpower 2 (1 / 12))%R.
Proof.
  intros Hc Ho Hv resolve. unfold resolve.
  rewrite !(calc_frequency_token c base o _ p Hc Ho Hv).
  change "A4" with (token "A" (Some 4%Z) Natural).
  change "C0" with (token "C" (Some 0%Z) Natural).
  rewrite (calc_frequency_token "A" 27.50000%R (Some 4%Z) Natural p),
          (calc_frequency_token "C" 16.35160%R (Some 0%Z) Natural p);
    try reflexivity; try assumption; try (simpl; lia).
  repeat split; try assumption; try reflexivity.
  - unfold with_freq, tone_frequency. simpl. lra.
  - unfold with_freq, tone_frequency. simpl. lra.
Qed.

Lemma resolve_tone_frequency_witness :
  _valid_note (calc_frequency (token "e" (Some 4%Z) Sharp) default_player)
  = true
  /\ freq (calc_frequency (token "e" (Some 4%Z) Sharp) default_player)
     = tone_frequency 20.60172%R (Some 4%Z) Sharp.
Proof.
  pose proof (resolve_tone_frequency "e" 20.60172%R (Some 4%Z) Sharp
                default_player) as H.
  simpl in H.
  destruct H as (H1 & H2 & _); [reflexivity | lia | reflexivity |].
  split; [exact H1 | exact H2].
Defined.

(** ** The waveform synthesizer *)

Section Synthesizer.

Local Open Scope R_scope.

Lemma linspace_length (start stop : R) (num : Z) (t : list R) :
  Np.linspace start stop num = Ok t -> length t = Z.to_nat num.
Proof.
  unfold Np.linspace. destruct (num <? 0)%Z; [discriminate|].
  intros [= <-]. now rewrite length_map, length_seq.
Qed.

Lemma linspace_ok (start stop : R) (num : Z) :
  (0 <= num)%Z -> exists t, Np.linspace start stop num = Ok t.
Proof.
  intros H. unfold Np.linspace.
  destruct (Z.ltb_spec num 0); [lia | eauto].
Qed.

Lemma linspace_negative (start stop : R) (num : Z) :
  (num < 0)%Z ->
  Np.linspace start stop num
  = Raise (ValueError
      ("Number of samples, " ++ DecimalString.NilZero.string_of_int (Z.to_int num)
       ++ ", must be non-negative.")).
Proof.
  intros H. unfold Np.linspace.
  destruct (Z.ltb_spec num 0); [reflexivity | lia].
Qed.

(** The rows stacked by the loop over the multipliers. *)
Lemma vstack_rows (row : R -> list R) (mults : list R) (rows : list (list R)) :
  fold_left (fun waves i => Np.vstack waves (row i)) mults (Np.Mat rows)
  = Np.Mat (rows ++ map row mults).
Proof.
  revert rows. induction mults as [|i mults IH]; intros rows; simpl.
  - now rewrite app_nil_r.
  - unfold Np.vstack at 2. simpl. rewrite IH, <- app_assoc. reflexivity.
Qed.

Lemma vstack_from_vector (row : R -> list R) (i : R) (mults : list R)
    (v : list R) :
  fold_left (fun waves i => Np.vstack waves (row i)) (i :: mults) (Np.Vec v)
  = Np.Mat (v :: map row (i :: mults)).
Proof. simpl. unfold Np.vstack at 2. simpl. now rewrite vstack_rows. Qed.

Lemma mean_axis0_matrix (v : list R) (rows : list (list R)) :
  exists audio,
    Np.mean_axis0 (Np.Mat (v :: rows)) = Np.Vec audio
    /\ length audio = length v.
Proof.
  eexists. split; [reflexivity|]. now rewrite length_map, length_seq.
Qed.

Lemma amax_nonempty (v : list R) :
  v <> [] -> exists peak, Np.amax v = Ok peak.
Proof. destruct v; [congruence | simpl; eauto]. Qed.

Lemma multiply_length (v w : list R) :
  length (Np.multiply v w) = Nat.min (length v) (length w).
Proof. unfold Np.multiply. now rewrite length_map, length_combine. Qed.

Lemma imul_head_length (k : nat) (w audio : list R) :
  length w = k -> (k <= length audio)%nat ->
  length (Np.imul_head k w audio) = length audio.
Proof.
  intros Hw Hk. unfold Np.imul_head.
  rewrite length_app, multiply_length, length_firstn, length_skipn. lia.
Qed.

Lemma imul_tail_length (k : nat) (w audio : list R) :
  length w = k -> (k <= length audio)%nat ->
  length (Np.imul_tail k w audio) = length audio.
Proof.
  intros Hw Hk. unfold Np.imul_tail.
  rewrite length_app, multiply_length, length_firstn, length_skipn. lia.
Qed.

Lemma arange_length (start stop step : Q) :
  length (Np.arange start stop step)
  = Z.to_nat (Qceiling ((stop - start) / step)%Q).
Proof. unfold Np.arange. now rewrite length_map, length_seq. Qed.

Lemma fade_in_length : length _fade_in = fade.
Proof. unfold _fade_in. rewrite arange_length. reflexivity. Qed.

Lemma fade_out_length : length _fade_out = fade.
Proof. unfold _fade_out. rewrite arange_length. reflexivity. Qed.

Lemma fade_step_length (audio : list R) :
  length (fade_step audio) = length audio.
Proof.
  unfold fade_step. destruct (Nat.ltb_spec fade (length audio)) as [H|H].
  - rewrite imul_tail_length, imul_head_length;
      rewrite ?imul_head_length, ?length_map, ?fade_in_length,
        ?fade_out_length; auto; lia.
  - reflexivity.
Qed.

(** The synthesizer on a duration whose sample count [int] yields, by
    the sign of the count. *)
Lemma generate_note_waveform_samples (p : Player) (duration : pyfloat)
    (i : R) (mults : list R) (num : Z) :
  sample_count duration = Ok num ->
  ((num < 0)%Z ->
   generate_note_waveform p duration (i :: mults)
   = Raise (ValueError
       ("Number of samples, " ++ DecimalString.NilZero.string_of_int (Z.to_int num)
        ++ ", must be non-negative.")))
  /\ (num = 0%Z ->
      generate_note_waveform p duration (i :: mults)
      = Raise (ValueError
          "zero-size array to reduction operation maximum which has no identity"))
  /\ ((0 < num)%Z ->
      exists audio,
        generate_note_waveform p duration (i :: mults) = Ok audio
        /\ length audio = Z.to_nat num).
Proof.
  intros Hcount. unfold generate_note_waveform. rewrite Hcount.
  split; [|split]; intros Hnum.
  - now rewrite linspace_negative.
  - rewrite Hnum. unfold Np.linspace. cbn [Z.ltb Z.compare Z.to_nat seq map].
    rewrite vstack_from_vector. reflexivity.
  - destruct (linspace_ok 0 (real_of_float duration) num ltac:(lia))
      as [t Ht].
    rewrite Ht. apply linspace_length in Ht.
    rewrite vstack_from_vector.
    destruct (mean_axis0_matrix (Np.zeros (length t))
                (map (fun i0 => map (fun tj => sin (2 * PI * freq p * tj * i0)) t)
                     (i :: mults))) as (audio & -> & Hlen).
    unfold Np.zeros in Hlen. rewrite repeat_length in Hlen.
    destruct (amax_nonempty (map Rabs audio)) as [peak ->].
    { destruct audio; [simpl in Hlen; lia | discriminate]. }
    eexists. split; [reflexivity|].
    rewrite length_map, fade_step_length, !length_map. lia.
Qed.

(** C2, amended.  With at least one multiplier: on a duration whose
    sample count [int(duration * 44100)], taken of the product as a
    double, is at least 1, the synthesizer returns a buffer of exactly
    that many samples.  On a sample count of 0, so on a zero duration, it
    returns no empty buffer: [np.max] raises [ValueError] on the empty
    array.  When [int] raises (an infinite or NaN duration, a product
    beyond the doubles), the synthesizer raises the same exception. *)
Theorem generate_note_waveform_length (p : Player) (duration : pyfloat)
    (i : R) (mults : list R) :
  (forall num,
     sample_count duration = Ok num -> (0 < num)%Z ->
     exists audio,
       generate_note_waveform p duration (i :: mults) = Ok audio
       /\ length audio = Z.to_nat num)
  /\ (sample_count duration = Ok 0%Z ->
      generate_note_waveform p duration (i :: mults)
      = Raise (ValueError
          "zero-size array to reduction operation maximum which has no identity"))
  /\ (forall e,
        sample_count duration = Raise e ->
        generate_note_waveform p duration (i :: mults) = Raise e).
Proof.
  split; [|split].
  - intros num Hcount Hpos.
    destruct (generate_note_waveform_samples p duration i mults num Hcount)
      as (_ & _ & H).
    now apply H.
  - intros Hcount.
    destruct (generate_note_waveform_samples p duration i mults 0 Hcount)
      as (_ & H & _).
    now apply H.
  - intros e Hcount. unfold generate_note_waveform. now rewrite Hcount.
Qed.

Lemma generate_note_waveform_length_witness :
  (exists audio,
     generate_note_waveform default_player (Finite 0.5) default_multipliers
     = Ok audio
     /\ length audio = Z.to_nat 22050)
  /\ (exists audio,
        generate_note_waveform default_player
          (Finite (5404319552844595 # 18014398509481984))
          default_multipliers
        = Ok audio
        /\ length audio = Z.to_nat 13230)
  /\ generate_note_waveform default_player (Finite 0.00001)
       default_multipliers
     = Raise (ValueError
          "zero-size array to reduction operation maximum which has no identity")
  /\ generate_note_waveform default_player (Inf false) default_multipliers
     = Raise (OverflowError "cannot convert float infinity to integer").
Proof.
  split; [|split; [|split]].
  - destruct (generate_note_waveform_length default_player (Finite 0.5)
                (-10) [-7; -4; -1; 2]) as [H _].
    apply (H 22050%Z); reflexivity.
  - destruct (generate_note_waveform_length default_player
                (Finite (5404319552844595 # 18014398509481984))
                (-10) [-7; -4; -1; 2]) as [H _].
    apply (H 13230%Z); reflexivity.
  - destruct (generate_note_waveform_length default_player (Finite 0.00001)
                (-10) [-7; -4; -1; 2]) as (_ & H & _).
    apply H. reflexivity.
  - destruct (generate_note_waveform_length default_player (Inf false)
                (-10) [-7; -4; -1; 2]) as (_ & _ & H).
    apply H. reflexivity.
Defined.

(** C2, as stated, fails on a zero duration: no buffer is returned. *)
Lemma zero_duration_returns_no_buffer :
  sample_count (Finite 0) = Ok 0%Z
  /\ ~ (exists audio,
         generate_note_waveform default_player (Finite 0) default_multipliers
         = Ok audio).
Proof.
  split; [reflexivity|].
  intros (audio & H).
  destruct (generate_note_waveform_samples default_player (Finite 0) (-10)
              [-7; -4; -1; 2] 0 eq_refl) as (_ & H0 & _).
  unfold default_multipliers in H. rewrite H0 in H by reflexivity.
  discriminate.
Qed.

End Synthesizer.

(** ** The fade *)

Section Fade.

Local Open Scope R_scope.

Lemma Q2R_inject_Z (z : Z) : Q2R (inject_Z z) = IZR z.
Proof. unfold Q2R, inject_Z. simpl. now rewrite Rinv_1, Rmult_1_r. Qed.

Lemma arange_nth (start stop step : Q) (i : nat) :
  (i < length (Np.arange start stop step))%nat ->
  nth i (Np.arange start stop step) 0%Q
  = (start + inject_Z (Z.of_nat i) * step)%Q.
Proof.
  intros Hi. rewrite arange_length in Hi. unfold Np.arange.
  set (g := fun j : nat => (start + inject_Z (Z.of_nat j) * step)%Q).
  rewrite (nth_indep _ 0%Q (g 0%nat)) by now rewrite length_map, length_seq.
  rewrite map_nth, seq_nth by assumption. reflexivity.
Qed.

Lemma ramp_nth (l : list Q) (i : nat) :
  (i < length l)%nat -> nth i (map Q2R l) 1 = Q2R (nth i l 0%Q).
Proof.
  intros Hi. rewrite (nth_indep _ 1 (Q2R 0%Q)) by now rewrite length_map.
  apply map_nth.
Qed.

Lemma fade_step_Q : ~ (inject_Z (Z.of_nat fade) == 0)%Q.
Proof. discriminate. Qed.

Lemma fade_in_gain_ramp (i : nat) :
  (i < fade)%nat -> fade_in_gain i = INR i / 800.
Proof.
  intros Hi. unfold fade_in_gain.
  rewrite ramp_nth by now rewrite fade_in_length.
  unfold _fade_in. rewrite arange_nth by now fold _fade_in; rewrite fade_in_length.
  rewrite Q2R_plus, Q2R_mult, Q2R_div by exact fade_step_Q.
  rewrite !Q2R_inject_Z, INR_IZR_INZ, RMicromega.Q2R_0, RMicromega.Q2R_1.
  change (IZR (Z.of_nat fade)) with 800. lra.
Qed.

Lemma fade_in_gain_outside (i : nat) :
  (fade <= i)%nat -> fade_in_gain i = 1.
Proof.
  intros Hi. unfold fade_in_gain. apply nth_overflow.
  now rewrite length_map, fade_in_length.
Qed.

Lemma fade_out_gain_ramp (n i : nat) :
  (n - fade <= i < n)%nat -> (fade <= n)%nat ->
  fade_out_gain n i = 1 - INR (i - (n - fade)) / 800.
Proof.
  intros Hi Hn. unfold fade_out_gain.
  destruct (Nat.ltb_spec i (n - fade)); [lia|].
  assert (Hj : (i - (n - fade) < fade)%nat) by lia.
  rewrite ramp_nth by now rewrite fade_out_length.
  unfold _fade_out.
  rewrite arange_nth by now fold _fade_out; rewrite fade_out_length.
  rewrite Q2R_plus, Q2R_mult, Q2R_opp, Q2R_div by exact fade_step_Q.
  rewrite !Q2R_inject_Z, INR_IZR_INZ, RMicromega.Q2R_1.
  change (IZR (Z.of_nat fade)) with 800. lra.
Qed.

Lemma fade_out_gain_outside (n i : nat) :
  (i < n - fade)%nat -> fade_out_gain n i = 1.
Proof.
  intros Hi. unfold fade_out_gain.
  destruct (Nat.ltb_spec i (n - fade)); [reflexivity | lia].
Qed.

Lemma multiply_nth (v w : list R) (i : nat) :
  length v = length w -> (i < length v)%nat ->
  nth i (Np.multiply v w) 0 = nth i v 0 * nth i w 1.
Proof.
  intros Hl Hi. unfold Np.multiply.
  set (g := fun xy : R * R => fst xy * snd xy).
  rewrite (nth_indep _ 0 (g (0, 1)))
    by (rewrite length_map, length_combine; lia).
  rewrite map_nth, combine_nth by assumption. reflexivity.
Qed.

Lemma imul_head_nth (k : nat) (w audio : list R) (i : nat) :
  length w = k -> (k <= length audio)%nat ->
  nth i (Np.imul_head k w audio) 0 = nth i audio 0 * nth i w 1.
Proof.
  intros Hw Hk. unfold Np.imul_head.
  assert (Hf : length (firstn k audio) = length w)
    by (rewrite length_firstn; lia).
  destruct (Nat.lt_ge_cases i k) as [Hi|Hi].
  - rewrite app_nth1 by (rewrite multiply_length; lia).
    rewrite multiply_nth by (try assumption; lia).
    rewrite nth_firstn. destruct (Nat.ltb_spec i k); [reflexivity | lia].
  - rewrite app_nth2 by (rewrite multiply_length; lia).
    rewrite multiply_length, Hf, Nat.min_id, Hw, nth_skipn.
    rewrite (nth_overflow w) by lia.
    replace (k + (i - k))%nat with i by lia. lra.
Qed.

Lemma imul_tail_nth (k : nat) (w audio : list R) (i : nat) :
  length w = k -> (k <= length audio)%nat ->
  nth i (Np.imul_tail k w audio) 0
  = nth i audio 0
    * (if (i <? length audio - k)%nat then 1
       else nth (i - (length audio - k)) w 1).
Proof.
  intros Hw Hk. unfold Np.imul_tail.
  set (m := (length audio - k)%nat).
  assert (Hs : length (skipn m audio) = length w)
    by (rewrite length_skipn; lia).
  assert (Hm : length (firstn m audio) = m)
    by (rewrite length_firstn; lia).
  destruct (Nat.ltb_spec i m) as [Hi|Hi].
  - rewrite app_nth1 by lia. rewrite nth_firstn.
    destruct (Nat.ltb_spec i m); [lra | lia].
  - rewrite app_nth2 by lia. rewrite Hm.
    destruct (Nat.lt_ge_cases (i - m) k) as [Hj|Hj].
    + rewrite multiply_nth by (try assumption; lia).
      rewrite nth_skipn. replace (m + (i - m))%nat with i by lia.
      reflexivity.
    + rewrite !nth_overflow; try lra; try lia.
      rewrite multiply_length. lia.
Qed.

Lemma fade_step_nth (audio : list R) (i : nat) :
  (fade < length audio)%nat ->
  nth i (fade_step audio) 0
  = nth i audio 0 * fade_in_gain i * fade_out_gain (length audio) i.
Proof.
  intros Hlen. unfold fade_step.
  destruct (Nat.ltb_spec fade (length audio)); [|lia].
  assert (Hin : length (map Q2R _fade_in) = fade)
    by now rewrite length_map, fade_in_length.
  assert (Hout : length (map Q2R _fade_out) = fade)
    by now rewrite length_map, fade_out_length.
  rewrite imul_tail_nth by (rewrite ?imul_head_length; auto; lia).
  rewrite imul_head_nth, imul_head_length by (auto; lia).
  reflexivity.
Qed.

(** The fade on a vector of any origin.  On more than [fade] = 800
    samples the fade multiplies sample [i] by the fade-in factor and by
    the fade-out factor.  The fade-in factor is the linear ramp [i / 800]
    on the first 800 samples, strictly increasing from 0 and below 1, and
    1 elsewhere; the fade-out factor is the linear ramp [1 - j / 800] on
    the last 800 samples ([j] counted from the first of them), strictly
    decreasing from 1 and above 0, and 1 elsewhere.  A vector of fewer
    than 800 samples is left as it is. *)
Theorem fade_step_ramps (audio : list R) :
  let n := length audio in
  ((fade < n)%nat ->
   length (fade_step audio) = n
   /\ (forall i,
         nth i (fade_step audio) 0
         = nth i audio 0 * fade_in_gain i * fade_out_gain n i)
   /\ (forall i, (i < fade)%nat ->
         fade_in_gain i = INR i / 800 /\ fade_in_gain i < 1)
   /\ fade_in_gain 0 = 0
   /\ (forall i j, (i < j < fade)%nat -> fade_in_gain i < fade_in_gain j)
   /\ (forall i, (fade <= i)%nat -> fade_in_gain i = 1)
   /\ (forall i, (n - fade <= i < n)%nat ->
         fade_out_gain n i = 1 - INR (i - (n - fade)) / 800
         /\ 0 < fade_out_gain n i)
   /\ fade_out_gain n (n - fade) = 1
   /\ (forall i j, (n - fade <= i < j)%nat -> (j < n)%nat ->
         fade_out_gain n j < fade_out_gain n i)
   /\ (forall i, (i < n - fade)%nat -> fade_out_gain n i = 1))
  /\ ((n < fade)%nat -> fade_step audio = audio).
Proof.
  intros n. split.
  - intros Hn.
    assert (Hbound : forall k, (k < fade)%nat -> INR k < 800).
    { intros k Hk. apply lt_INR in Hk.
      rewrite (INR_IZR_INZ fade) in Hk.
      change (IZR (Z.of_nat fade)) with 800 in Hk. exact Hk. }
    split; [apply fade_step_length|].
    split; [intros i; now apply fade_step_nth|].
    split.
    { intros i Hi. rewrite fade_in_gain_ramp by assumption.
      specialize (Hbound i Hi). split; [reflexivity | lra]. }
    split.
    { rewrite fade_in_gain_ramp by (unfold fade; lia). rewrite INR_0. lra. }
    split.
    { intros i j Hij. rewrite !fade_in_gain_ramp by lia.
      assert (INR i < INR j) by (apply lt_INR; lia). lra. }
    split; [exact fade_in_gain_outside|].
    split.
    { intros i Hi. rewrite fade_out_gain_ramp by lia.
      specialize (Hbound (i - (n - fade))%nat ltac:(lia)).
      split; [reflexivity | lra]. }
    split.
    { rewrite fade_out_gain_ramp by (unfold fade in *; lia).
      rewrite Nat.sub_diag, INR_0. lra. }
    split.
    { intros i j Hij Hj. rewrite !fade_out_gain_ramp by lia.
      assert (INR (i - (n - fade)) < INR (j - (n - fade)))
        by (apply lt_INR; lia).
      lra. }
    intros i Hi. now apply fade_out_gain_outside.
  - intros Hn. unfold fade_step. fold n.
    destruct (Nat.ltb_spec fade n); [lia | reflexivity].
Qed.

Lemma fade_step_ramps_witness :
  nth 1 (fade_step (repeat 1 801)) 0
  = nth 1 (repeat 1 801) 0 * fade_in_gain 1 * fade_out_gain 801 1
  /\ fade_step [1; 2; 3] = [1; 2; 3].
Proof.
  split.
  - pose proof (fade_step_ramps (repeat 1 801)) as [H _].
    rewrite repeat_length in H.
    destruct H as (_ & H & _); [unfold fade; lia|].
    apply H.
  - pose proof (fade_step_ramps [1; 2; 3]) as [_ H].
    apply H. simpl. unfold fade. lia.
Defined.

End Fade.

(** ** The tune sequencer *)

Section Sequencer.

Variable float_of_str : string -> option pyfloat.
Variable mults : list R.

Local Abbreviation parse_line := (parse_line float_of_str).
Local Abbreviation tune_loop := (tune_loop float_of_str mults).

(** One turn of the loop, by what the line is. *)
Lemma tune_loop_blank (line : string) (lines : list string) (p : Player)
    (acc : list (list Z)) :
  Str.strip line = "" ->
  tune_loop (line :: lines) p acc = tune_loop lines p acc.
Proof. intros H. simpl. rewrite H. reflexivity. Qed.

Lemma tune_loop_skip (line : string) (lines : list string) (p : Player)
    (acc : list (list Z)) :
  Str.strip line <> "" ->
  _valid_note (calc_frequency (fst (parse_line (Str.strip line))) p) = false ->
  tune_loop (line :: lines) p acc
  = tune_loop lines
      (calc_frequency (fst (parse_line (Str.strip line))) p) acc.
Proof.
  intros Hne Hv. simpl.
  destruct (Str.strip line) as [|c s] eqn:E; [congruence|].
  cbn [String.length Nat.ltb Nat.leb].
  destruct (parse_line (String c s)) as [note d]. simpl in *.
  now rewrite Hv.
Qed.

Lemma tune_loop_note (line : string) (lines : list string) (p : Player)
    (acc : list (list Z)) (wave : list Z) :
  Str.strip line <> "" ->
  _valid_note (calc_frequency (fst (parse_line (Str.strip line))) p) = true ->
  generate_note_waveform
    (calc_frequency (fst (parse_line (Str.strip line))) p)
    (snd (parse_line (Str.strip line))) mults = Ok wave ->
  tune_loop (line :: lines) p acc
  = tune_loop lines
      (calc_frequency (fst (parse_line (Str.strip line))) p) (acc ++ [wave]).
Proof.
  intros Hne Hv Hw. simpl.
  destruct (Str.strip line) as [|c s] eqn:E; [congruence|].
  cbn [String.length Nat.ltb Nat.leb].
  destruct (parse_line (String c s)) as [note d]. simpl in *.
  now rewrite Hv, Hw.
Qed.

(** Once the flag is down no later line contributes a buffer: the loop
    never sets it back. *)
Lemma tune_loop_invalid (lines : list string) (p : Player)
    (acc : list (list Z)) :
  _valid_note p = false ->
  exists p', tune_loop lines p acc = (p', Ok acc) /\ _valid_note p' = false.
Proof.
  revert p. induction lines as [|line lines IH]; intros p Hp.
  - exists p. split; [reflexivity | assumption].
  - destruct (string_dec (Str.strip line) "") as [Hb|Hb].
    + rewrite tune_loop_blank by assumption. now apply IH.
    + pose proof (calc_frequency_keeps_invalid
                    (fst (parse_line (Str.strip line))) p Hp) as Hq.
      rewrite tune_loop_skip by assumption. now apply IH.
Qed.

(** A tune none of whose lines resolves leaves the list of buffers as it
    was. *)
Lemma tune_loop_nothing_resolves (lines : list string) (p : Player)
    (acc : list (list Z)) :
  Forall (fun line =>
            Str.strip line = ""
            \/ forall q, _valid_note
                 (calc_frequency (fst (parse_line (Str.strip line))) q)
               = false) lines ->
  exists p', tune_loop lines p acc = (p', Ok acc).
Proof.
  intros H. revert p. induction H as [|line lines Hline _ IH]; intros p.
  - exists p. reflexivity.
  - destruct (string_dec (Str.strip line) "") as [Hb|Hb].
    + rewrite tune_loop_blank by assumption. apply IH.
    + destruct Hline as [Hline|Hline]; [congruence|].
      rewrite tune_loop_skip by auto. apply IH.
Qed.

End Sequencer.

(** ** Failures of the resolver *)

(** C8, amended.  On a token whose length is not 1, 2 or 3 the resolver
    fails.  When the first character is a letter of the table the failure
    is the shape failure, reported with the whole token; when it is not
    (the empty token included) the failure is the letter failure, reported
    with the first character, and no shape failure is reported. *)
Theorem shape_failure (note : string) (p : Player) :
  String.length note <> 1 -> String.length note <> 2 ->
  String.length note <> 3 ->
  _valid_note p = true ->
  _valid_note (calc_frequency note p) = false
  /\ (lookup (Str.upper (substring 0 1 note)) note_frequencies <> None ->
      reports_shape_failure note p)
  /\ (lookup (Str.upper (substring 0 1 note)) note_frequencies = None ->
      log (calc_frequency note p)
      = (log p ++ [Stderr (invalid_note_line (substring 0 1 note))])%list).
Proof.
  intros H1 H2 H3 Hv.
  apply Nat.eqb_neq in H1, H2, H3.
  unfold reports_shape_failure, calc_frequency. rewrite H1, H2, H3.
  unfold set_base_frequency.
  destruct (lookup (Str.upper (substring 0 1 note)) note_frequencies)
    as [base|]; simpl.
  - rewrite Hv. simpl. repeat split; auto. congruence.
  - repeat split; auto. congruence.
Qed.

Lemma shape_failure_witness :
  reports_shape_failure "C4#4" default_player
  /\ log (calc_frequency "" default_player)
     = [Stderr "Error: invalid note: ''"].
Proof.
  split.
  - apply (shape_failure "C4#4" default_player);
      simpl; try lia; try reflexivity; discriminate.
  - apply (shape_failure "" default_player);
      simpl; try lia; reflexivity.
Defined.

(** C8, as stated, fails on ["pause"]: its length is 5, and the failure
    reported is the letter failure on ['p']. *)
Lemma pause_is_no_shape_failure :
  String.length "pause" = 5
  /\ log (calc_frequency "pause" default_player)
     = [Stderr "Error: invalid note: 'p'"]
  /\ ~ reports_shape_failure "pause" default_player.
Proof.
  split; [reflexivity|]. split; [reflexivity|].
  unfold reports_shape_failure. intros H.
  assert (E : log (calc_frequency "pause" default_player)
              = [Stderr "Error: invalid note: 'p'"]) by reflexivity.
  rewrite E in H. discriminate.
Qed.

(** ** Construction and the argument of [play_tune] *)

Lemma Qltb_lt (x y : Q) : (x < y)%Q -> Qltb x y = true.
Proof.
  intros H. unfold Qltb. destruct (Qle_bool y x) eqn:E; [|reflexivity].
  apply Qle_bool_iff in E. exfalso. now apply (Qlt_not_le x y).
Qed.

Lemma Qltb_ge (x y : Q) : (y <= x)%Q -> Qltb x y = false.
Proof.
  intros H. unfold Qltb. apply Qle_bool_iff in H. now rewrite H.
Qed.

(** C9.  A volume below 0 or above 1 makes the constructor raise
    [ValueError]; every volume from 0 to 1, the two bounds included, gives
    a player.  [play_tune] on a value that is neither a [str] nor a [list]
    raises [TypeError] at once: the player is unchanged, so nothing was
    printed or played. *)
Theorem construction_and_tune_argument :
  (forall (v : Q) (m : bool), (v < 0)%Q \/ (1 < v)%Q ->
     init v m = Raise (ValueError "Volume must be a float between 0 and 1"))
  /\ (forall (v : Q) (m : bool), (0 <= v <= 1)%Q ->
        init v m = Ok (mkPlayer v m 0%R true None (Finite 0) []))
  /\ (forall m, init 0 m = Ok (mkPlayer 0 m 0%R true None (Finite 0) []))
  /\ (forall m, init 1 m = Ok (mkPlayer 1 m 0%R true None (Finite 0) []))
  /\ (forall float_of_str read_lines (tune : pyvalue) (mults : list R)
             (p : Player),
        (forall path, tune <> PyStr path) ->
        (forall lines, tune <> PyList lines) ->
        play_tune float_of_str read_lines tune mults p
        = (p, Raise (TypeError "tune must be a string or list"))).
Proof.
  repeat split.
  - intros v m [H|H]; unfold init.
    + now rewrite (Qltb_lt _ _ H).
    + now rewrite (Qltb_lt _ _ H), orb_true_r.
  - intros v m [H0 H1]. unfold init.
    now rewrite (Qltb_ge _ _ H0), (Qltb_ge _ _ H1).
  - intros float_of_str read_lines tune mults p Hs Hl.
    destruct tune; try reflexivity.
    + now destruct (Hs s).
    + now destruct (Hl items).
Qed.

Lemma construction_and_tune_argument_witness :
  init 1.5 false = Raise (ValueError "Volume must be a float between 0 and 1")
  /\ init (-0.1) false
     = Raise (ValueError "Volume must be a float between 0 and 1")
  /\ init 0.3 false = Ok default_player
  /\ play_tune float_of_decimal (fun _ => None) (PyTuple ["E4"; "D4"])
       default_multipliers default_player
     = (default_player, Raise (TypeError "tune must be a string or list")).
Proof.
  destruct construction_and_tune_argument as (Hbad & Hgood & _ & _ & Htune).
  split; [apply Hbad; right; reflexivity|].
  split; [apply Hbad; left; reflexivity|].
  split; [apply Hgood; split; discriminate|].
  apply Htune; discriminate.
Defined.

(** ** Lines of a tune *)

Lemma split_nonempty (sep : ascii) (s : string) : Str.split sep s <> [].
Proof.
  destruct s as [|c s]; simpl; [discriminate|].
  destruct (Ascii.eqb c sep); [discriminate|].
  destruct (Str.split sep s); discriminate.
Qed.

Lemma split_no_separator (sep : ascii) (s : string) :
  contains sep s = false -> Str.split sep s = [s].
Proof.
  induction s as [|c s IH]; simpl; [reflexivity|].
  intros H. apply orb_false_iff in H as [Hc Hs].
  rewrite Hc, (IH Hs). reflexivity.
Qed.

Lemma split_at_separator (sep : ascii) (a b : string) :
  contains sep a = false ->
  Str.split sep (a ++ String sep b) = a :: Str.split sep b.
Proof.
  induction a as [|c a IH]; simpl.
  - intros _. now rewrite Ascii.eqb_refl.
  - intros H. apply orb_false_iff in H as [Hc Ha].
    rewrite Hc, (IH Ha). reflexivity.
Qed.

Lemma split_first_no_separator (sep : ascii) (s : string) :
  contains sep s = false -> split_first sep s = (s, None).
Proof.
  induction s as [|c s IH]; simpl; [reflexivity|].
  intros H. apply orb_false_iff in H as [Hc Hs].
  rewrite Hc, (IH Hs). reflexivity.
Qed.

Lemma split_first_at_separator (sep : ascii) (a b : string) :
  contains sep a = false ->
  split_first sep (a ++ String sep b) = (a, Some b).
Proof.
  induction a as [|c a IH]; simpl.
  - intros _. now rewrite Ascii.eqb_refl.
  - intros H. apply orb_false_iff in H as [Hc Ha].
    rewrite Hc, (IH Ha). reflexivity.
Qed.

Section Lines.

Variable float_of_str : string -> option pyfloat.

Lemma parse_line_no_colon (line : string) :
  contains ":" line = false -> parse_line float_of_str line = (line, Finite 0.5).
Proof.
  intros H. unfold parse_line.
  now rewrite split_no_separator.
Qed.

Lemma parse_line_one_colon (note text : string) :
  contains ":" note = false -> contains ":" text = false ->
  parse_line float_of_str (note ++ String ":" text)
  = (note,
     match float_of_str text with Some d => d | None => Finite 0.5 end).
Proof.
  intros Hn Ht. unfold parse_line.
  now rewrite split_at_separator, split_no_separator.
Qed.

Lemma parse_line_more_colons (a b c : string) :
  contains ":" a = false -> contains ":" b = false ->
  parse_line float_of_str (a ++ String ":" (b ++ String ":" c))
  = (a ++ String ":" (b ++ String ":" c), Finite 0.5).
Proof.
  intros Ha Hb. unfold parse_line.
  rewrite !split_at_separator by assumption.
  destruct (Str.split ":" c) eqn:E; [|reflexivity].
  now destruct (split_nonempty ":" c).
Qed.

(** C6, amended.  A blank line is skipped.  A line without [:] is the
    token, with the duration 0.5.  A line with exactly one [:] is split
    there into token and duration text, and the duration is the float read
    from the text, or 0.5 when the text is no float.  A line with more
    than one [:] is not split: the whole line is the token, with the
    duration 0.5.  So the line is split on the first [:] exactly when it
    has at most one. *)
Theorem line_token_and_duration (line : string) :
  (Str.strip line = "" ->
   forall mults lines p acc,
     tune_loop float_of_str mults (line :: lines) p acc
     = tune_loop float_of_str mults lines p acc)
  /\ (contains ":" line = false ->
      parse_line float_of_str line = (line, Finite 0.5)
      /\ parse_line float_of_str line = spec_parse_line float_of_str line)
  /\ (forall note text,
        line = note ++ String ":" text ->
        contains ":" note = false -> contains ":" text = false ->
        parse_line float_of_str line
        = (note,
           match float_of_str text with
           | Some d => d
           | None => Finite 0.5
           end)
        /\ parse_line float_of_str line = spec_parse_line float_of_str line)
  /\ (forall a b c,
        line = a ++ String ":" (b ++ String ":" c) ->
        contains ":" a = false -> contains ":" b = false ->
        parse_line float_of_str line = (line, Finite 0.5)).
Proof.
  split; [|split; [|split]].
  - intros H mults lines p acc. now apply tune_loop_blank.
  - intros H. rewrite parse_line_no_colon by assumption.
    split; [reflexivity|].
    unfold spec_parse_line. now rewrite split_first_no_separator.
  - intros note text -> Hn Ht.
    rewrite parse_line_one_colon by assumption.
    split; [reflexivity|].
    unfold spec_parse_line. now rewrite split_first_at_separator.
  - intros a b c -> Ha Hb. now apply parse_line_more_colons.
Qed.

End Lines.

Lemma line_token_and_duration_witness :
  parse_line float_of_decimal "E4" = ("E4", Finite 0.5)
  /\ parse_line float_of_decimal "E4:0.25" = ("E4", Finite 0.25)
  /\ parse_line float_of_decimal "E4:fast" = ("E4", Finite 0.5)
  /\ parse_line float_of_decimal "E4:0.25:x" = ("E4:0.25:x", Finite 0.5)
  /\ tune_loop float_of_decimal default_multipliers ["  "] default_player []
     = (default_player, Ok []).
Proof.
  split; [apply (line_token_and_duration float_of_decimal "E4"); reflexivity|].
  split.
  { apply (line_token_and_duration float_of_decimal "E4:0.25" )
      with (note := "E4") (text := "0.25"); reflexivity. }
  split.
  { apply (line_token_and_duration float_of_decimal "E4:fast")
      with (note := "E4") (text := "fast"); reflexivity. }
  split.
  { apply (line_token_and_duration float_of_decimal "E4:0.25:x")
      with (a := "E4") (b := "0.25") (c := "x"); reflexivity. }
  destruct (line_token_and_duration float_of_decimal "  ") as [H _].
  rewrite H; reflexivity.
Defined.

(** C6, as stated, fails on a line with two [:]: the code takes the whole
    line as the token, where a split on the first [:] gives ["E4"]. *)
Lemma line_with_two_colons_is_not_split :
  parse_line float_of_decimal "E4:0.25:x" = ("E4:0.25:x", Finite 0.5)
  /\ spec_parse_line float_of_decimal "E4:0.25:x" = ("E4", Finite 0.5)
  /\ parse_line float_of_decimal "E4:0.25:x"
     <> spec_parse_line float_of_decimal "E4:0.25:x".
Proof.
  split; [reflexivity|]. split; [reflexivity|]. discriminate.
Qed.

(** ** Tunes *)

Section Tunes.

Variable float_of_str : string -> option pyfloat.
Variable mults : list R.

Local Abbreviation run := (tune_loop float_of_str mults).

(** The loop on a tune in two parts is the loop on the second part from
    where the first part leaves the player and the buffers. *)
Lemma tune_loop_app (before after : list string) (p : Player)
    (acc : list (list Z)) :
  run (before ++ after) p acc
  = match run before p acc with
    | (p1, Ok acc1) => run after p1 acc1
    | (p1, Raise e) => (p1, Raise e)
    end.
Proof.
  revert p acc. induction before as [|line before IH]; intros p acc.
  - reflexivity.
  - simpl.
    destruct (0 <? String.length (Str.strip line)); [|apply IH].
    destruct (parse_line float_of_str (Str.strip line)) as [note d].
    destruct (_valid_note (calc_frequency note p)); [|apply IH].
    destruct (generate_note_waveform (calc_frequency note p) d mults);
      [apply IH | reflexivity].
Qed.

(** C3, on the code.  A token that fails resolution contributes no
    buffer, and the loop goes on without an exception; but every line after
    it is dropped as well, whatever it holds: the output of the tune is
    the concatenation of the buffers collected before the failed token. *)
Theorem invalid_token_drops_later_notes (before after : list string)
    (bad : string) (p p1 : Player) (waves : list (list Z)) :
  run before p [] = (p1, Ok waves) ->
  Str.strip bad <> "" ->
  _valid_note
    (calc_frequency (fst (parse_line float_of_str (Str.strip bad))) p1)
  = false ->
  snd (generate_tune_waveform float_of_str (before ++ bad :: after) mults p)
  = Np.concatenate waves.
Proof.
  intros Hbefore Hbad Hfail. unfold generate_tune_waveform.
  rewrite tune_loop_app, Hbefore, tune_loop_skip by assumption.
  destruct (tune_loop_invalid float_of_str mults after _ waves Hfail)
    as (p' & -> & _).
  reflexivity.
Qed.

(** C10.  When no line yields a resolved note (each line is blank or holds
    a token that fails resolution), [generate_tune_waveform] raises the
    [ValueError] of [np.concatenate] on an empty list. *)
Theorem tune_without_notes_raises (lines : list string) (p : Player) :
  Forall (fun line =>
            Str.strip line = ""
            \/ forall q, _valid_note
                 (calc_frequency
                    (fst (parse_line float_of_str (Str.strip line))) q)
               = false) lines ->
  snd (generate_tune_waveform float_of_str lines mults p)
  = Raise (ValueError "need at least one array to concatenate").
Proof.
  intros H. unfold generate_tune_waveform.
  destruct (tune_loop_nothing_resolves float_of_str mults lines p [] H)
    as [p' ->].
  reflexivity.
Qed.

End Tunes.

Lemma invalid_token_drops_later_notes_witness :
  snd (generate_tune_waveform float_of_decimal ["X4"; "D4:0.5"]
         default_multipliers default_player)
  = Raise (ValueError "need at least one array to concatenate").
Proof.
  apply (invalid_token_drops_later_notes float_of_decimal
           default_multipliers [] ["D4:0.5"] "X4" default_player
           default_player []).
  - reflexivity.
  - discriminate.
  - reflexivity.
Defined.

Lemma tune_without_notes_raises_witness :
  snd (generate_tune_waveform float_of_decimal [""; "H2"; "A9:1"]
         default_multipliers default_player)
  = Raise (ValueError "need at least one array to concatenate").
Proof.
  apply tune_without_notes_raises.
  apply Forall_cons; [left; reflexivity|].
  apply Forall_cons;
    [right; intros q; destruct q as [v m f [|] o d l]; reflexivity|].
  apply Forall_cons;
    [right; intros q; destruct q as [v m f [|] o d l]; reflexivity|].
  apply Forall_nil.
Defined.

(** C7, on the code.  The sequencer has no case for ["pause"]: it hands
    the token to the resolver, which reports the letter failure on ['p']
    and lowers the flag, so the line contributes no buffer, no time
    passes, and every later line is dropped.  [play_note] does have the
    case: it waits for the previous sound, prints the pause and sleeps,
    and plays no buffer. *)
Theorem pause_line_is_an_invalid_note
    (float_of_str : string -> option pyfloat) (mults : list R)
    (lines : list string) (p : Player) (acc : list (list Z)) (d : Q) :
  (0 <= d)%Q ->
  calc_frequency "pause" p
  = emit (Stderr "Error: invalid note: 'p'") (with_valid_note false p)
  /\ (exists p',
        tune_loop float_of_str mults ("pause:0.5" :: lines) p acc
        = (p', Ok acc)
        /\ _valid_note p' = false)
  /\ (exists p',
        tune_loop float_of_str mults ("pause" :: lines) p acc = (p', Ok acc)
        /\ _valid_note p' = false)
  /\ play_note "pause" (Finite d) p
     = (with_destructor_sleep (Finite 0)
          (emit (Sleep d)
             (print_played_note "pause" (Finite d)
                (wait_for_prev_sound (with_valid_note true p)))),
        Ok tt).
Proof.
  intros Hd.
  assert (Hpause : calc_frequency "pause" p
                   = emit (Stderr "Error: invalid note: 'p'")
                          (with_valid_note false p)) by reflexivity.
  split; [exact Hpause|]. split; [|split].
  - rewrite tune_loop_skip.
    + apply tune_loop_invalid.
      change (Str.strip "pause:0.5") with "pause:0.5".
      unfold parse_line. cbn [Str.split]. simpl. reflexivity.
    + discriminate.
    + change (Str.strip "pause:0.5") with "pause:0.5".
      unfold parse_line. simpl. reflexivity.
  - rewrite tune_loop_skip.
    + apply tune_loop_invalid. reflexivity.
    + discriminate.
    + reflexivity.
  - unfold play_note. cbn [String.eqb Ascii.eqb Bool.eqb].
    unfold time_sleep.
    set (q := print_played_note _ _ _).
    now rewrite (Qltb_ge d 0 Hd).
Qed.

Lemma pause_line_is_an_invalid_note_witness :
  log (fst (generate_tune_waveform float_of_decimal ["pause:0.5"; "D4:0.5"]
              default_multipliers default_player))
  = [Stderr "Error: invalid note: 'p'"]
  /\ snd (generate_tune_waveform float_of_decimal ["pause:0.5"; "D4:0.5"]
            default_multipliers default_player)
     = Raise (ValueError "need at least one array to concatenate")
  /\ log (fst (play_note "pause" (Finite 0.5) default_player))
     = [Stdout (Pausing (Finite 0.5)); Sleep 0.5].
Proof.
  destruct (pause_line_is_an_invalid_note float_of_decimal
              default_multipliers ["D4:0.5"] default_player [] 0.5)
    as (Hcalc & (p' & Hloop & Hflag) & _ & Hplay); [discriminate|].
  split; [|split].
  - reflexivity.
  - unfold generate_tune_waveform. rewrite Hloop. reflexivity.
  - rewrite Hplay. reflexivity.
Defined.

(** C4, on the code.  From the default player, the tune
    [["E4:0.5", "D4:0.5"]] is the buffer of E4 followed by the buffer of
    D4, 22050 samples each, with nothing between them.  With an invalid
    token between the two notes the tune is the buffer of E4 alone: the
    buffer of D4 is missing. *)
Theorem tune_with_invalid_token_amid_valid :
  exists wE wD,
    generate_note_waveform (calc_frequency "E4" default_player)
      (Finite 0.5) default_multipliers = Ok wE
    /\ generate_note_waveform (calc_frequency "D4" default_player)
         (Finite 0.5) default_multipliers = Ok wD
    /\ length wE = Z.to_nat 22050
    /\ length wD = Z.to_nat 22050
    /\ snd (generate_tune_waveform float_of_decimal ["E4:0.5"; "D4:0.5"]
              default_multipliers default_player)
       = Ok (wE ++ wD)%list
    /\ snd (generate_tune_waveform float_of_decimal
              ["E4:0.5"; "X4"; "D4:0.5"] default_multipliers default_player)
       = Ok wE
    /\ wE <> (wE ++ wD)%list.
Proof.
  destruct (generate_note_waveform_samples
              (calc_frequency "E4" default_player) (Finite 0.5) (-10)
              [-7; -4; -1; 2]%R 22050 eq_refl)
    as (_ & _ & HE).
  destruct (generate_note_waveform_samples
              (calc_frequency "D4" default_player) (Finite 0.5) (-10)
              [-7; -4; -1; 2]%R 22050 eq_refl)
    as (_ & _ & HD).
  destruct HE as (wE & HE & HlE); [reflexivity|].
  destruct HD as (wD & HD & HlD); [reflexivity|].
  fold default_multipliers in HE, HD.
  exists wE, wD.
  split; [exact HE|]. split; [exact HD|].
  split; [exact HlE|]. split; [exact HlD|].
  split; [|split].
  - unfold generate_tune_waveform.
    rewrite (tune_loop_note _ _ "E4:0.5" _ _ _ wE);
      [|discriminate|reflexivity|exact HE].
    rewrite (tune_loop_note _ _ "D4:0.5" _ _ _ wD);
      [|discriminate|reflexivity|exact HD].
    cbn [tune_loop snd Np.concatenate app concat].
    now rewrite app_nil_r.
  - unfold generate_tune_waveform.
    rewrite (tune_loop_note _ _ "E4:0.5" _ _ _ wE);
      [|discriminate|reflexivity|exact HE].
    rewrite tune_loop_skip; [|discriminate|reflexivity].
    rewrite tune_loop_skip; [|discriminate|reflexivity].
    cbn [tune_loop snd Np.concatenate app concat].
    now rewrite app_nil_r.
  - intros H. apply (f_equal (@length Z)) in H.
    rewrite length_app, HlE, HlD in H. lia.
Qed.

(** * Further properties of the resolver *)

Section Resolver.

Local Open Scope R_scope.

Lemma upper_char_idempotent (c : ascii) :
  Str.upper_char (Str.upper_char c) = Str.upper_char c.
Proof.
  destruct c as [[|] [|] [|] [|] [|] [|] [|] [|]]; reflexivity.
Qed.

(** A one-character octave text that [__set_octave] accepts is the digit
    of its value. *)
Lemma octave_digit (x : ascii) :
  match Str.py_int (String x "") with
  | Some v => (0 <= v <= 8)%Z -> String x "" = digit_text v
  | None => True
  end.
Proof.
  destruct x as [[|] [|] [|] [|] [|] [|] [|] [|]]; vm_compute;
    try exact I; intros [H1 H2]; try reflexivity;
    exfalso; try (apply H1; reflexivity); apply H2; reflexivity.
Qed.

Lemma good_octave (x : ascii) :
  ~ bad_octave (String x "") ->
  exists v, (0 <= v <= 8)%Z /\ String x "" = digit_text v
            /\ Str.py_int (String x "") = Some v.
Proof.
  intros H. pose proof (octave_digit x) as Hd. unfold bad_octave in H.
  destruct (Str.py_int (String x "")) as [v|]; [|now destruct H].
  assert (Hv : (0 <= v <= 8)%Z) by lia.
  exists v. auto.
Qed.

Lemma table_positive (key : string) (base : R) :
  lookup key note_frequencies = Some base -> 0 < base.
Proof.
  unfold note_frequencies. simpl.
  repeat (destruct (String.eqb key _); [intros [= <-]; lra|]).
  discriminate.
Qed.

Lemma semitone_positive : 0 < Rpower 2 (1 / 12).
Proof. unfold Rpower. apply exp_pos. Qed.

Lemma tone_frequency_positive (base : R) (o : option Z) (a : accidental) :
  0 < base -> valid_octave o -> 0 < tone_frequency base o a.
Proof.
  intros Hb Ho. unfold tone_frequency.
  assert (Hp : 0 < IZR (2 ^ match o with Some z => z | None => 4 end)).
  { apply IZR_lt. apply Z.pow_pos_nonneg; [lia|].
    destruct o; simpl in Ho; lia. }
  pose proof semitone_positive as Hs.
  assert (Hf : 0 < base * IZR (2 ^ match o with Some z => z | None => 4 end))
    by now apply Rmult_lt_0_compat.
  destruct a.
  - exact Hf.
  - now apply Rmult_lt_0_compat.
  - now apply Rdiv_lt_0_compat.
Qed.

(** What a successful resolution tells about the token. *)
Lemma resolution_success_inv (note : string) (p : Player) :
  _valid_note (calc_frequency note p) = true ->
  exists c base o a,
    note = token c o a
    /\ lookup (Str.upper (String c "")) note_frequencies = Some base
    /\ valid_octave o.
Proof.
  intros Hok.
  destruct (invalid_token_fails note p) as (Hletter & Hoct2 & Hoct3 & Hacc & Hshape).
  assert (Hno : forall P : Prop,
            (P -> _valid_note (calc_frequency note p) = false) -> ~ P).
  { intros P HP HPn. rewrite (HP HPn) in Hok. discriminate. }
  destruct note as [|c [|x [|y [|z rest]]]].
  - exfalso. apply (Hno _ (Hshape ltac:(discriminate) ltac:(discriminate))).
    discriminate.
  - destruct (lookup (Str.upper (String c "")) note_frequencies)
      as [base|] eqn:E.
    + exists c, base, None, Natural. repeat split; auto.
    + exfalso. now apply (Hno _ Hletter).
  - destruct (lookup (Str.upper (String c "")) note_frequencies)
      as [base|] eqn:E; [|exfalso; now apply (Hno _ Hletter)].
    destruct (string_dec (String x "") "#") as [Hs|Hs].
    { injection Hs as ->. exists c, base, None, Sharp. repeat split; auto. }
    destruct (string_dec (String x "") "b") as [Hb|Hb].
    { injection Hb as ->. exists c, base, None, Flat. repeat split; auto. }
    destruct (good_octave x) as (v & Hv & Hx & _).
    { apply Hno. apply Hoct2; auto. }
    injection Hx as ->.
    exists c, base, (Some v), Natural. repeat split; simpl; auto; lia.
  - destruct (lookup (Str.upper (String c "")) note_frequencies)
      as [base|] eqn:E; [|exfalso; now apply (Hno _ Hletter)].
    destruct (good_octave x) as (v & Hv & Hx & _).
    { apply Hno. apply Hoct3; auto. }
    injection Hx as ->.
    destruct (string_dec (String y "") "#") as [Hs|Hs].
    { injection Hs as ->. exists c, base, (Some v), Sharp.
      repeat split; simpl; auto; lia. }
    destruct (string_dec (String y "") "b") as [Hb|Hb].
    { injection Hb as ->. exists c, base, (Some v), Flat.
      repeat split; simpl; auto; lia. }
    exfalso. apply (Hno _ (Hacc eq_refl Hs)). exact Hb.
  - exfalso.
    apply (Hno _ (Hshape ltac:(discriminate) ltac:(discriminate))).
    discriminate.
Qed.

(** X1.  Among the strings of characters with code points below 256,
    which are the strings of this development: from a raised flag the
    resolver succeeds exactly on the tokens made of a letter of the table
    (in either case), an optional octave digit from 0 to 8 and an
    optional [#] or [b]; on success the frequency is the tone frequency
    of that token.  (Beyond code point 255 [int] also reads the decimal
    digits of other scripts, so the code accepts further tokens there.) *)
Theorem resolution_succeeds_exactly_on_tokens (note : string) (p : Player) :
  _valid_note p = true ->
  (_valid_note (calc_frequency note p) = true <->
   exists c base o a,
     note = token c o a
     /\ lookup (Str.upper (String c "")) note_frequencies = Some base
     /\ valid_octave o
     /\ freq (calc_frequency note p) = tone_frequency base o a).
Proof.
  intros Hp. split.
  - intros Hok.
    destruct (resolution_success_inv note p Hok)
      as (c & base & o & a & -> & Hc & Ho).
    exists c, base, o, a. split; [reflexivity|]. split; [exact Hc|].
    split; [exact Ho|].
    now rewrite (calc_frequency_token c base o a p Hc Ho Hp).
  - intros (c & base & o & a & -> & Hc & Ho & _).
    rewrite (calc_frequency_token c base o a p Hc Ho Hp). exact Hp.
Qed.

Lemma resolution_succeeds_exactly_on_tokens_witness :
  _valid_note (calc_frequency "g2b" default_player) = true
  /\ ~ (exists c base o a,
          "A9" = token c o a
          /\ lookup (Str.upper (String c "")) note_frequencies = Some base
          /\ valid_octave o
          /\ freq (calc_frequency "A9" default_player)
             = tone_frequency base o a).
Proof.
  split.
  - apply (resolution_succeeds_exactly_on_tokens "g2b" default_player);
      [reflexivity|].
    exists "g"%char, 24.49971, (Some 2%Z), Flat.
    split; [reflexivity|]. split; [reflexivity|]. split; [simpl; lia|].
    reflexivity.
  - intros H.
    apply (resolution_succeeds_exactly_on_tokens "A9" default_player) in H;
      [discriminate | reflexivity].
Defined.

(** X2.  A frequency the resolver accepts is positive. *)
Theorem resolved_frequency_positive (note : string) (p : Player) :
  _valid_note p = true ->
  _valid_note (calc_frequency note p) = true ->
  0 < freq (calc_frequency note p).
Proof.
  intros Hp Hok.
  destruct (resolution_success_inv note p Hok)
    as (c & base & o & a & -> & Hc & Ho).
  rewrite (calc_frequency_token c base o a p Hc Ho Hp).
  apply tone_frequency_positive; [|exact Ho].
  exact (table_positive _ _ Hc).
Qed.

Lemma resolved_frequency_positive_witness :
  0 < freq (calc_frequency "F8#" default_player).
Proof.
  apply resolved_frequency_positive; reflexivity.
Defined.

(** X3.  The letter is read without regard to case: a token and the same
    token with its first character in upper case resolve to the same
    frequency and the same flag. *)
Theorem letter_case_is_ignored (c : ascii) (rest : string) (p : Player) :
  freq (calc_frequency (String c rest) p)
  = freq (calc_frequency (String (Str.upper_char c) rest) p)
  /\ _valid_note (calc_frequency (String c rest) p)
     = _valid_note (calc_frequency (String (Str.upper_char c) rest) p).
Proof.
  unfold calc_frequency, set_base_frequency.
  cbn [substring String.length Str.upper].
  rewrite !substring_0_0. cbn [Str.upper].
  rewrite upper_char_idempotent.
  destruct (lookup (String (Str.upper_char c) "") note_frequencies)
    as [base|].
  - repeat match goal with
           | |- context [if ?b then _ else _] => destruct b
           end; split; reflexivity.
  - set (q1 := emit _ _). set (q2 := emit _ _).
    assert (H1 : _valid_note q1 = false) by reflexivity.
    assert (H2 : _valid_note q2 = false) by reflexivity.
    assert (Hf : freq q1 = freq q2) by reflexivity.
    repeat match goal with
           | |- context [if ?b then _ else _] => destruct b
           end;
      rewrite ?(set_octave_invalid _ q1), ?(set_octave_invalid _ q2),
        ?(set_semitone_invalid _ q1), ?(set_semitone_invalid _ q2),
        ?H1, ?H2 by assumption;
      split; try assumption; try reflexivity; congruence.
Qed.

(** X4.  A token without an octave resolves as the same token with the
    octave 4, on every player and for every first character: the two
    calls leave identical players. *)
Theorem octave_defaults_to_four (c : ascii) (a : accidental) (p : Player) :
  calc_frequency (token c None a) p = calc_frequency (token c (Some 4%Z) a) p.
Proof. destruct a; reflexivity. Qed.

(** X5.  One octave up doubles the frequency, with or without an
    accidental. *)
Theorem octave_doubles_frequency (c : ascii) (base : R) (o : Z)
    (a : accidental) (p : Player) :
  lookup (Str.upper (String c "")) note_frequencies = Some base ->
  (0 <= o <= 7)%Z ->
  _valid_note p = true ->
  freq (calc_frequency (token c (Some (o + 1)%Z) a) p)
  = 2 * freq (calc_frequency (token c (Some o) a) p).
Proof.
  intros Hc Ho Hp.
  rewrite (calc_frequency_token c base (Some (o + 1)%Z) a p),
          (calc_frequency_token c base (Some o) a p)
    by (simpl; auto; lia).
  unfold with_freq, tone_frequency. cbn [freq].
  rewrite Z.pow_add_r by lia. rewrite mult_IZR.
  change (IZR (2 ^ 1)) with 2.
  pose proof semitone_positive as Hs.
  destruct a; try lra; field; lra.
Qed.

Lemma octave_doubles_frequency_witness :
  freq (calc_frequency "A5" default_player)
  = 2 * freq (calc_frequency "A4" default_player).
Proof.
  apply (octave_doubles_frequency "A" 27.50000 4 Natural default_player);
    [reflexivity | lia | reflexivity].
Defined.

End Resolver.

(** * The player across calls *)

Lemma keeps_frame_refl (p : Player) : keeps_frame p p.
Proof. unfold keeps_frame. auto. Qed.

Lemma keeps_frame_trans (p q r : Player) :
  keeps_frame p q -> keeps_frame q r -> keeps_frame p r.
Proof.
  unfold keeps_frame. intros (H1 & H2 & H3 & H4) (K1 & K2 & K3 & K4).
  repeat split; congruence.
Qed.

Lemma quiet_step_refl (p : Player) : quiet_step p p.
Proof. unfold quiet_step. auto using keeps_frame_refl. Qed.

Lemma quiet_then_quiet (p q r : Player) :
  quiet_step p q -> quiet_step q r -> quiet_step p r.
Proof.
  intros (F1 & V1 & L1) (F2 & V2 & L2).
  split; [eapply keeps_frame_trans; eassumption|]. split; congruence.
Qed.

Lemma quiet_then_failing (p q r : Player) :
  quiet_step p q -> failing_step q r -> failing_step p r.
Proof.
  intros (F1 & V1 & L1) (F2 & V2 & line & L2).
  split; [eapply keeps_frame_trans; eassumption|]. split; [assumption|].
  exists line. congruence.
Qed.

Lemma failing_then_quiet (p q r : Player) :
  failing_step p q -> quiet_step q r -> failing_step p r.
Proof.
  intros (F1 & V1 & line & L1) (F2 & V2 & L2).
  split; [eapply keeps_frame_trans; eassumption|]. split; [congruence|].
  exists line. congruence.
Qed.

Lemma set_base_frequency_step (note : string) (p : Player) :
  quiet_step p (set_base_frequency note p)
  \/ failing_step p (set_base_frequency note p).
Proof.
  unfold set_base_frequency.
  destruct (lookup _ note_frequencies).
  - left. repeat split.
  - right. split; [repeat split|]. split; [reflexivity|]. eexists. reflexivity.
Qed.

Lemma set_octave_step (octave : string) (p : Player) :
  quiet_step p (set_octave octave p)
  \/ (_valid_note p = true /\ failing_step p (set_octave octave p)).
Proof.
  unfold set_octave. destruct (_valid_note p) eqn:Hv; simpl.
  - destruct (Str.py_int octave) as [v|].
    + destruct ((v <? 0)%Z || (v >? 8)%Z).
      * right. split; [reflexivity|]. split; [repeat split|].
        split; [reflexivity|]. eexists. reflexivity.
      * left. split; [repeat split|]. split; [simpl; congruence | reflexivity].
    + right. split; [reflexivity|]. split; [repeat split|].
      split; [reflexivity|]. eexists. reflexivity.
  - left. apply quiet_step_refl.
Qed.

Lemma set_semitone_step (symbol : string) (p : Player) :
  quiet_step p (set_semitone symbol p)
  \/ (_valid_note p = true /\ failing_step p (set_semitone symbol p)).
Proof.
  unfold set_semitone. destruct (_valid_note p) eqn:Hv; simpl.
  - destruct (String.eqb symbol "#");
      [left; split; [repeat split|]; split; [simpl; congruence | reflexivity]|].
    destruct (String.eqb symbol "b");
      [left; split; [repeat split|]; split; [simpl; congruence | reflexivity]|].
    right. split; [reflexivity|]. split; [repeat split|].
    split; [reflexivity|]. eexists. reflexivity.
  - left. apply quiet_step_refl.
Qed.

(** A step followed by a setter that only acts on a raised flag. *)
Lemma step_then_guarded (p q r : Player) :
  quiet_step p q \/ failing_step p q ->
  quiet_step q r \/ (_valid_note q = true /\ failing_step q r) ->
  quiet_step p r \/ failing_step p r.
Proof.
  intros [H1|H1] [H2|[Hv H2]].
  - left. eapply quiet_then_quiet; eassumption.
  - right. eapply quiet_then_failing; eassumption.
  - right. eapply failing_then_quiet; eassumption.
  - destruct H1 as (_ & Hq & _). congruence.
Qed.

Lemma calc_frequency_step (note : string) (p : Player) :
  quiet_step p (calc_frequency note p)
  \/ failing_step p (calc_frequency note p).
Proof.
  unfold calc_frequency.
  pose proof (set_base_frequency_step note p) as Hb.
  set (q := set_base_frequency note p) in *.
  destruct (String.length note =? 1).
  { eapply step_then_guarded; [exact Hb | apply set_octave_step]. }
  destruct (String.length note =? 2).
  { destruct (_ || _).
    - eapply step_then_guarded; [|apply set_semitone_step].
      eapply step_then_guarded; [exact Hb | apply set_octave_step].
    - eapply step_then_guarded; [exact Hb | apply set_octave_step]. }
  destruct (String.length note =? 3).
  { eapply step_then_guarded; [|apply set_semitone_step].
    eapply step_then_guarded; [exact Hb | apply set_octave_step]. }
  destruct (_valid_note q) eqn:Hv; [|exact Hb].
  eapply step_then_guarded; [exact Hb|].
  right. split; [exact Hv|]. split; [repeat split|].
  split; [reflexivity|]. eexists. reflexivity.
Qed.

Lemma app_one_neq {A : Type} (l : list A) (x : A) : (l ++ [x])%list <> l.
Proof.
  intros H. apply (f_equal (@length A)) in H.
  rewrite length_app in H. simpl in H. lia.
Qed.

(** X6.  One resolution prints at most one line, on the error stream, and
    touches neither the volume, the mute option, the play object nor the
    destructor sleep.  From a raised flag it prints exactly one line when
    it fails and none when it succeeds. *)
Theorem resolution_prints_at_most_one_line (note : string) (p : Player) :
  let q := calc_frequency note p in
  keeps_frame p q
  /\ (log q = log p \/ exists line, log q = (log p ++ [Stderr line])%list)
  /\ (_valid_note p = true ->
      (_valid_note q = true <-> log q = log p)
      /\ (_valid_note q = false <->
          exists line, log q = (log p ++ [Stderr line])%list)).
Proof.
  intros q. subst q.
  destruct (calc_frequency_step note p)
    as [(F & V & L) | (F & V & line & L)].
  - split; [exact F|]. split; [left; exact L|].
    intros Hp. split; split; try congruence.
    intros (line & Hl). rewrite L in Hl. symmetry in Hl.
    now apply app_one_neq in Hl.
  - split; [exact F|]. split; [right; exists line; exact L|].
    intros Hp. split; split; try congruence.
    + intros Hl. rewrite L in Hl. now apply app_one_neq in Hl.
    + intros _. exists line. exact L.
Qed.

Lemma resolution_prints_at_most_one_line_witness :
  log (calc_frequency "H9x" default_player)
  = [Stderr "Error: invalid note: 'H'"]
  /\ (_valid_note (calc_frequency "C4" default_player) = true <->
      log (calc_frequency "C4" default_player) = log default_player).
Proof.
  split; [reflexivity|].
  destruct (resolution_prints_at_most_one_line "C4" default_player)
    as (_ & _ & H).
  apply H. reflexivity.
Defined.

Lemma set_octave_bad (octave : string) (p : Player) :
  _valid_note p = true -> bad_octave octave ->
  set_octave octave p
  = emit (Stderr (invalid_octave_line octave)) (with_valid_note false p).
Proof.
  intros Hp Hb. unfold set_octave, bad_octave in *. rewrite Hp. simpl.
  destruct (Str.py_int octave) as [v|]; [|reflexivity].
  destruct (Z.ltb_spec v 0); simpl; [reflexivity|].
  destruct (Z.gtb_spec v 8); simpl; [reflexivity | lia].
Qed.

Lemma set_octave_good (octave : string) (p : Player) :
  _valid_note p = true -> ~ bad_octave octave ->
  _valid_note (set_octave octave p) = true
  /\ log (set_octave octave p) = log p.
Proof.
  intros Hp Hb. unfold set_octave, bad_octave in *. rewrite Hp. simpl.
  destruct (Str.py_int octave) as [v|]; [|now destruct Hb].
  destruct (Z.ltb_spec v 0); simpl; [lia|].
  destruct (Z.gtb_spec v 8); simpl; [lia|]. auto.
Qed.

Lemma set_semitone_bad (symbol : string) (p : Player) :
  _valid_note p = true -> symbol <> "#" -> symbol <> "b" ->
  set_semitone symbol p
  = emit (Stderr (invalid_symbol_line symbol)) (with_valid_note false p).
Proof.
  intros Hp Hs Hb. unfold set_semitone. rewrite Hp. simpl.
  apply String.eqb_neq in Hs, Hb. now rewrite Hs, Hb.
Qed.

Lemma calc_frequency_letter_failure (note : string) (p : Player) :
  lookup (Str.upper (substring 0 1 note)) note_frequencies = None ->
  calc_frequency note p
  = emit (Stderr (invalid_note_line (substring 0 1 note)))
         (with_valid_note false p).
Proof.
  intros H. unfold calc_frequency.
  rewrite set_base_frequency_no_letter by assumption.
  set (q := emit _ _).
  assert (Hq : _valid_note q = false) by reflexivity.
  destruct (String.length note =? 1); [now rewrite set_octave_invalid|].
  destruct (String.length note =? 2).
  { destruct (_ || _);
      [rewrite set_semitone_invalid|]; now rewrite set_octave_invalid. }
  destruct (String.length note =? 3).
  { rewrite set_semitone_invalid; now rewrite set_octave_invalid. }
  now rewrite Hq.
Qed.

(** X7.  A failure is reported by the first stage that fails, with the
    text that stage read.  A first character outside the table gives the
    note line with that character, whatever follows and whatever the
    flag.  With a letter of the table and a raised flag: a bad octave
    character gives the octave line, also when the accidental is bad too;
    a good octave and a bad accidental give the symbol line; and in a
    token of two characters a second character other than [#] and [b] is
    read as an octave. *)
Theorem failure_is_reported_by_first_stage (c x y : ascii) (rest : string)
    (p : Player) :
  (lookup (Str.upper (String c "")) note_frequencies = None ->
   calc_frequency (String c rest) p
   = emit (Stderr (invalid_note_line (String c "")))
          (with_valid_note false p))
  /\ (lookup (Str.upper (String c "")) note_frequencies <> None ->
      _valid_note p = true ->
      (bad_octave (String x "") ->
       log (calc_frequency (String c (String x (String y ""))) p)
       = (log p ++ [Stderr (invalid_octave_line (String x ""))])%list)
      /\ (~ bad_octave (String x "") ->
          String y "" <> "#" -> String y "" <> "b" ->
          log (calc_frequency (String c (String x (String y ""))) p)
          = (log p ++ [Stderr (invalid_symbol_line (String y ""))])%list)
      /\ (String x "" <> "#" -> String x "" <> "b" ->
          bad_octave (String x "") ->
          log (calc_frequency (String c (String x "")) p)
          = (log p ++ [Stderr (invalid_octave_line (String x ""))])%list)).
Proof.
  split.
  - intros H.
    rewrite calc_frequency_letter_failure;
      cbn [substring]; rewrite substring_0_0; [reflexivity | exact H].
  - intros Hc Hp.
    destruct (lookup (Str.upper (String c "")) note_frequencies)
      as [base|] eqn:E; [clear Hc | congruence].
    assert (Hq : _valid_note (with_freq base p) = true) by exact Hp.
    split; [|split].
    + intros Hx. unfold calc_frequency.
      rewrite (set_base_frequency_letter c _ base p E).
      cbn [String.length Nat.eqb substring].
      rewrite (set_octave_bad _ _ Hq Hx).
      now rewrite set_semitone_invalid.
    + intros Hx Hs Hb. unfold calc_frequency.
      rewrite (set_base_frequency_letter c _ base p E).
      cbn [String.length Nat.eqb substring].
      destruct (set_octave_good _ _ Hq Hx) as [Hv Hl].
      rewrite (set_semitone_bad _ _ Hv Hs Hb).
      cbn [emit log with_valid_note]. now rewrite Hl.
    + intros Hs Hb Hx. unfold calc_frequency.
      rewrite (set_base_frequency_letter c _ base p E).
      cbn [String.length Nat.eqb substring].
      apply String.eqb_neq in Hs, Hb. rewrite Hs, Hb. cbn [orb].
      now rewrite (set_octave_bad _ _ Hq Hx).
Qed.

Lemma failure_is_reported_by_first_stage_witness :
  log (calc_frequency "A9x" default_player)
  = [Stderr "Error: invalid octave: '9'"]
  /\ log (calc_frequency "A4x" default_player)
     = [Stderr "Error: invalid symbol: 'x'"]
  /\ log (calc_frequency "A$" default_player)
     = [Stderr "Error: invalid octave: '$'"]
  /\ calc_frequency "h4#" default_player
     = emit (Stderr "Error: invalid note: 'h'")
            (with_valid_note false default_player).
Proof.
  destruct (failure_is_reported_by_first_stage "A" "9" "x" "" default_player)
    as (_ & H9).
  destruct (failure_is_reported_by_first_stage "A" "4" "x" "" default_player)
    as (_ & H4).
  destruct (failure_is_reported_by_first_stage "A" "$" "x" "" default_player)
    as (_ & Hd).
  destruct (failure_is_reported_by_first_stage "h" "4" "#" "4#" default_player)
    as (Hh & _).
  destruct H9 as (H9 & _ & _); [simpl; discriminate | reflexivity|].
  destruct H4 as (_ & H4 & _); [simpl; discriminate | reflexivity|].
  destruct Hd as (_ & _ & Hd); [simpl; discriminate | reflexivity|].
  split; [apply H9; unfold bad_octave; simpl; lia|].
  split.
  { apply H4; [|discriminate|discriminate].
    unfold bad_octave. simpl. lia. }
  split; [apply Hd; [discriminate | discriminate | exact I]|].
  apply Hh. reflexivity.
Defined.

(** ** [play_note] *)

Lemma token_is_not_pause (c : ascii) (o : option Z) (a : accidental) :
  String.eqb (token c o a) "pause" = false.
Proof.
  apply String.eqb_neq. intros H.
  apply (f_equal String.length) in H.
  destruct o, a; discriminate.
Qed.

(** X8.  [play_note] on a valid token and a duration whose sample count
    [int(duration * 44100)], taken of the product as a double, is at
    least 1 plays exactly one buffer of that many samples: it synthesizes
    the buffer at the resolved frequency with the default multipliers,
    waits when a buffer was played before, hands the buffer to the device
    as one channel of 2-byte samples at 44100 Hz, prints the progress
    line unless muted, and records the duration for the destructor. *)
Theorem play_note_plays_one_buffer (c : ascii) (base : R) (o : option Z)
    (a : accidental) (duration : pyfloat) (num : Z) (p : Player) :
  lookup (Str.upper (String c "")) note_frequencies = Some base ->
  valid_octave o ->
  sample_count duration = Ok num ->
  (0 < num)%Z ->
  let f := tone_frequency base o a in
  let q := fst (play_note (token c o a) duration p) in
  exists audio,
    generate_note_waveform (with_freq f (with_valid_note true p)) duration
      default_multipliers = Ok audio
    /\ length audio = Z.to_nat num
    /\ snd (play_note (token c o a) duration p) = Ok tt
    /\ log q
       = (log p
          ++ match _play_obj p with Some _ => [WaitPlayObj] | None => [] end
          ++ [PlayBuffer audio 1 2 44100]
          ++ (if mute_output p then []
              else [Stdout (Playing (token c o a) f duration)]))%list
    /\ _play_obj q = Some audio
    /\ _destructor_sleep q = duration
    /\ freq q = f
    /\ _valid_note q = true.
Proof.
  intros Hc Ho Hcount Hd f q.
  destruct (generate_note_waveform_samples
              (with_freq f (with_valid_note true p)) duration (-10)%R
              [-7; -4; -1; 2]%R num Hcount) as (_ & _ & Hgen).
  destruct (Hgen Hd) as (audio & Ha & Hl). fold default_multipliers in Ha.
  exists audio. split; [exact Ha|]. split; [exact Hl|].
  subst q. unfold play_note.
  rewrite token_is_not_pause.
  rewrite (calc_frequency_token c base o a (with_valid_note true p) Hc Ho
             eq_refl).
  fold f. cbn [_valid_note with_freq with_valid_note].
  unfold write_stream.
  change (generate_note_waveform _ duration default_multipliers)
    with (generate_note_waveform (with_freq f (with_valid_note true p))
            duration default_multipliers).
  rewrite Ha.
  unfold print_played_note, wait_for_prev_sound.
  cbn [_play_obj with_freq with_valid_note].
  rewrite token_is_not_pause.
  destruct (_play_obj p), (mute_output p) eqn:Hm;
    cbn [fst snd log _play_obj _destructor_sleep freq _valid_note
         mute_output with_destructor_sleep with_play_obj emit with_freq
         with_valid_note negb orb];
    rewrite ?Hm; cbn [orb negb];
    cbn [fst snd log _play_obj _destructor_sleep freq _valid_note
         mute_output with_destructor_sleep with_play_obj emit with_freq
         with_valid_note];
    rewrite <- ?app_assoc; repeat split.
Qed.

Lemma play_note_plays_one_buffer_witness :
  exists audio,
    length audio = Z.to_nat 11025
    /\ log (fst (play_note "C4#" (Finite 0.25) default_player))
       = [PlayBuffer audio 1 2 44100;
          Stdout (Playing "C4#" (tone_frequency 16.35160 (Some 4%Z) Sharp)
                    (Finite 0.25))].
Proof.
  destruct (play_note_plays_one_buffer "C" 16.35160%R (Some 4%Z) Sharp
              (Finite 0.25) 11025 default_player)
    as (audio & _ & Hl & _ & Hlog & _);
    [reflexivity | simpl; lia | reflexivity | reflexivity|].
  exists audio. split; [exact Hl | exact Hlog].
Defined.

(** X9.  [play_note] on a token that fails resolution returns normally
    and plays nothing: one line goes to the error stream and nothing
    else is printed, played or slept; the play object and the destructor
    sleep are as before.  The outcome of [play_note] does not depend on
    the flag the player enters with. *)
Theorem play_note_skips_invalid_note (note : string) (duration : pyfloat)
    (p : Player) :
  note <> "pause" ->
  _valid_note (calc_frequency note (with_valid_note true p)) = false ->
  let q := fst (play_note note duration p) in
  snd (play_note note duration p) = Ok tt
  /\ (exists line, log q = (log p ++ [Stderr line])%list)
  /\ _play_obj q = _play_obj p
  /\ _destructor_sleep q = _destructor_sleep p
  /\ volume q = volume p
  /\ mute_output q = mute_output p
  /\ forall b, play_note note duration (with_valid_note b p)
               = play_note note duration p.
Proof.
  intros Hn Hfail q. subst q.
  unfold play_note.
  apply String.eqb_neq in Hn. rewrite Hn, Hfail.
  cbv beta iota zeta. cbn [fst snd].
  destruct (calc_frequency_step note (with_valid_note true p))
    as [(_ & V & _) | ((Hv & Hm & Ho & Hs) & _ & line & L)].
  { rewrite Hfail in V. discriminate. }
  split; [reflexivity|]. split; [exists line; exact L|].
  split; [exact Ho|]. split; [exact Hs|]. split; [exact Hv|].
  split; [exact Hm|].
  intros b.
  change (with_valid_note true (with_valid_note b p))
    with (with_valid_note true p).
  rewrite Hfail. reflexivity.
Qed.

Lemma play_note_skips_invalid_note_witness :
  play_note "Z" (Finite 0.5) default_player
  = (emit (Stderr "Error: invalid note: 'Z'")
          (with_valid_note false default_player), Ok tt).
Proof.
  destruct (play_note_skips_invalid_note "Z" (Finite 0.5) default_player)
    as (_ & _ & _ & _ & _ & _ & H); [discriminate | reflexivity|].
  rewrite <- (H true). reflexivity.
Defined.

Lemma calc_frequency_log (note : string) (p : Player) :
  exists l, log (calc_frequency note p) = (log p ++ l)%list
            /\ Forall not_stdout l
            /\ mute_output (calc_frequency note p) = mute_output p.
Proof.
  destruct (calc_frequency_step note p)
    as [((_ & Hm & _) & _ & L) | ((_ & Hm & _) & _ & line & L)].
  - exists []. rewrite app_nil_r. auto.
  - exists [Stderr line]. repeat split; auto. repeat constructor.
Qed.

(** X10.  A muted player prints no progress line: whatever the note and
    the duration, the events [play_note] adds hold no line on the
    standard output (the error lines are still printed). *)
Theorem muted_player_prints_no_progress (note : string) (duration : pyfloat)
    (p : Player) :
  mute_output p = true ->
  exists l,
    log (fst (play_note note duration p)) = (log p ++ l)%list
    /\ Forall not_stdout l.
Proof.
  intros Hm. unfold play_note.
  destruct (String.eqb note "pause").
  - unfold print_played_note, wait_for_prev_sound.
    cbn [_play_obj with_valid_note mute_output].
    assert (Hw : exists l,
               log match _play_obj p with
                   | Some _ => emit WaitPlayObj (with_valid_note true p)
                   | None => with_valid_note true p
                   end = (log p ++ l)%list
               /\ Forall not_stdout l
               /\ mute_output match _play_obj p with
                              | Some _ => emit WaitPlayObj (with_valid_note true p)
                              | None => with_valid_note true p
                              end = true).
    { destruct (_play_obj p).
      - exists [WaitPlayObj]. repeat split; auto. repeat constructor.
      - exists []. simpl. rewrite app_nil_r. auto. }
    destruct Hw as (l & Hl & Hf & Hmw).
    set (w := match _play_obj p with
              | Some _ => emit WaitPlayObj (with_valid_note true p)
              | None => with_valid_note true p
              end) in *.
    rewrite Hmw. cbn [orb]. unfold time_sleep.
    destruct duration as [d|[|]|].
    + destruct (Qltb d 0); cbn [fst].
      * exists l. auto.
      * exists (l ++ [Sleep d])%list. cbn [log with_destructor_sleep emit].
        rewrite Hl, app_assoc. split; [reflexivity|].
        apply Forall_app. split; [exact Hf | repeat constructor].
    + exists l. auto.
    + exists l. auto.
    + exists l. auto.
  - destruct (calc_frequency_log note (with_valid_note true p))
      as (l & Hl & Hf & Hmq).
    set (q := calc_frequency note (with_valid_note true p)) in *.
    cbn [log with_valid_note mute_output] in Hl, Hmq.
    destruct (_valid_note q) eqn:Hv; [|exists l; auto].
    unfold write_stream.
    destruct (generate_note_waveform q duration default_multipliers)
      as [audio|e]; [|exists l; auto].
    unfold print_played_note, wait_for_prev_sound.
    destruct (_play_obj q);
      cbn [fst log with_destructor_sleep with_play_obj emit mute_output];
      rewrite Hmq, Hm; cbn [orb fst log with_destructor_sleep with_play_obj emit];
      rewrite Hl, <- !app_assoc; eexists; (split; [reflexivity|]);
      apply Forall_app; (split; [exact Hf | repeat constructor]).
Qed.

Lemma muted_player_prints_no_progress_witness :
  log (fst (play_note "pause" (Finite 0.5)
              (mkPlayer 0.3 true 0%R true None (Finite 0) [])))
  = [Sleep 0.5].
Proof.
  destruct (muted_player_prints_no_progress "pause" (Finite 0.5)
              (mkPlayer 0.3 true 0%R true None (Finite 0) []))
    as (l & Hl & _); [reflexivity|].
  reflexivity.
Defined.

(** ** The sequencer and the player *)

Section SequencerFrame.

Variable float_of_str : string -> option pyfloat.
Variable read_lines : string -> option (list string).
Variable mults : list R.

Lemma calc_frequency_errors (note : string) (p : Player) :
  keeps_frame p (calc_frequency note p)
  /\ exists l, log (calc_frequency note p) = (log p ++ l)%list
               /\ Forall is_stderr l.
Proof.
  destruct (calc_frequency_step note p)
    as [(F & _ & L) | (F & _ & line & L)]; (split; [exact F|]).
  - exists []. rewrite app_nil_r. auto.
  - exists [Stderr line]. split; [exact L | repeat constructor].
Qed.

Lemma tune_loop_frame (lines : list string) (p : Player)
    (acc : list (list Z)) :
  let q := fst (tune_loop float_of_str mults lines p acc) in
  keeps_frame p q
  /\ exists l, log q = (log p ++ l)%list /\ Forall is_stderr l.
Proof.
  revert p acc. induction lines as [|line lines IH]; intros p acc.
  - simpl. split; [apply keeps_frame_refl|].
    exists []. rewrite app_nil_r. auto.
  - cbn [tune_loop].
    destruct (0 <? String.length (Str.strip line)); [|apply IH].
    destruct (parse_line float_of_str (Str.strip line)) as [note d].
    destruct (calc_frequency_errors note p) as (F & l & Hl & Hf).
    assert (Hnext : forall acc',
              let q := fst (tune_loop float_of_str mults lines
                              (calc_frequency note p) acc') in
              keeps_frame p q
              /\ exists l', log q = (log p ++ l')%list
                            /\ Forall is_stderr l').
    { intros acc'. destruct (IH (calc_frequency note p) acc')
        as (F' & l' & Hl' & Hf').
      split; [eapply keeps_frame_trans; eassumption|].
      exists (l ++ l')%list. split; [|now apply Forall_app].
      cbv zeta in Hl'. cbv zeta. rewrite Hl', Hl. now rewrite app_assoc. }
    destruct (_valid_note (calc_frequency note p)); [|apply Hnext].
    destruct (generate_note_waveform (calc_frequency note p) d mults);
      [apply Hnext|].
    cbn [fst]. split; [exact F|]. exists l. auto.
Qed.

Lemma sequencer_frame_aux (lines : list string) (p : Player) :
  keeps_frame p (fst (generate_tune_waveform float_of_str lines mults p)).
Proof.
  unfold generate_tune_waveform.
  pose proof (tune_loop_frame lines p []) as [H _].
  destruct (tune_loop float_of_str mults lines p []) as [q [waves|e]];
    exact H.
Qed.

(** X11.  The sequencer touches neither the volume, the mute option, the
    play object nor the destructor sleep, and prints nothing but error
    lines: no progress line is printed for a tune, muted or not, and
    nothing is played or slept while the buffer is built. *)
Theorem sequencer_only_prints_errors (lines : list string) (p : Player) :
  let q := fst (generate_tune_waveform float_of_str lines mults p) in
  keeps_frame p q
  /\ exists l, log q = (log p ++ l)%list /\ Forall is_stderr l.
Proof.
  unfold generate_tune_waveform.
  pose proof (tune_loop_frame lines p []) as H.
  destruct (tune_loop float_of_str mults lines p []) as [q [waves|e]];
    exact H.
Qed.

(** X12.  [play_tune] never assigns the destructor sleep, the volume or
    the mute option, on any argument; so a player that was constructed
    and has only played a tune sleeps 0 seconds in [__del__]: the
    destructor does not wait for the tune. *)
Theorem play_tune_records_no_destructor_sleep (tune : pyvalue) (p : Player) :
  let q := fst (play_tune float_of_str read_lines tune mults p) in
  _destructor_sleep q = _destructor_sleep p
  /\ volume q = volume p
  /\ mute_output q = mute_output p
  /\ (_destructor_sleep p = Finite 0 ->
      del q = (emit (Sleep 0) q, Ok tt)).
Proof.
  intros q.
  assert (H : _destructor_sleep q = _destructor_sleep p
              /\ volume q = volume p /\ mute_output q = mute_output p).
  { subst q. unfold play_tune.
    assert (Hgen : forall lines,
              let q := fst (let (p0, r) :=
                              generate_tune_waveform float_of_str lines mults p
                            in
                            match r with
                            | Ok audio =>
                                write_stream (Finite 0.5) (Some audio) p0
                            | Raise e => (p0, Raise e)
                            end) in
              _destructor_sleep q = _destructor_sleep p
              /\ volume q = volume p /\ mute_output q = mute_output p).
    { intros lines.
      destruct (sequencer_frame_aux lines p) as (Hv & Hm & _ & Hs).
      destruct (generate_tune_waveform float_of_str lines mults p)
        as [g [audio|e]]; cbn [fst] in *.
      - unfold write_stream, wait_for_prev_sound.
        destruct (_play_obj g); cbn [fst]; auto.
      - auto. }
    destruct tune; try (cbn [fst]; auto); try apply Hgen.
    destruct (read_lines s); [apply Hgen | cbn [fst]; auto]. }
  destruct H as (Hs & Hv & Hm).
  split; [exact Hs|]. split; [exact Hv|]. split; [exact Hm|].
  intros H0. unfold del. rewrite Hs, H0. reflexivity.
Qed.

End SequencerFrame.

Lemma play_tune_records_no_destructor_sleep_witness :
  let q := fst (play_tune float_of_decimal (fun _ => None)
                  (PyList ["E4:0.5"]) default_multipliers default_player) in
  del q = (emit (Sleep 0) q, Ok tt).
Proof.
  intros q.
  destruct (play_tune_records_no_destructor_sleep float_of_decimal
              (fun _ => None) default_multipliers (PyList ["E4:0.5"])
              default_player) as (_ & _ & _ & H).
  apply H. reflexivity.
Defined.

(** X13.  A player whose flag is down gives no tune: on every list of
    lines [generate_tune_waveform] raises the [ValueError] of
    [np.concatenate].  [play_note] leaves the flag down after a token that
    fails, so a [play_tune] that follows such a [play_note] raises on
    every tune, also on one of valid notes only. *)
Theorem tune_after_failed_note_raises
    (float_of_str : string -> option pyfloat)
    (read_lines : string -> option (list string)) (mults : list R)
    (lines : list string) (note : string) (duration : pyfloat) (p : Player) :
  note <> "pause" ->
  _valid_note (calc_frequency note (with_valid_note true p)) = false ->
  (forall q, _valid_note q = false ->
     snd (generate_tune_waveform float_of_str lines mults q)
     = Raise (ValueError "need at least one array to concatenate"))
  /\ snd (play_tune float_of_str read_lines (PyList lines) mults
            (fst (play_note note duration p)))
     = Raise (ValueError "need at least one array to concatenate").
Proof.
  intros Hn Hfail.
  assert (Hgen : forall q, _valid_note q = false ->
            snd (generate_tune_waveform float_of_str lines mults q)
            = Raise (ValueError "need at least one array to concatenate")).
  { intros q Hq. unfold generate_tune_waveform.
    destruct (tune_loop_invalid float_of_str mults lines q [] Hq)
      as (q' & -> & _).
    reflexivity. }
  split; [exact Hgen|].
  assert (Hplay : fst (play_note note duration p)
                  = calc_frequency note (with_valid_note true p)).
  { unfold play_note. apply String.eqb_neq in Hn. rewrite Hn, Hfail.
    reflexivity. }
  rewrite Hplay. unfold play_tune.
  specialize (Hgen _ Hfail).
  destruct (generate_tune_waveform float_of_str lines mults
              (calc_frequency note (with_valid_note true p)))
    as [g [audio|e]]; cbn [snd] in *; [discriminate|].
  injection Hgen as ->. reflexivity.
Qed.

Lemma tune_after_failed_note_raises_witness :
  snd (play_tune float_of_decimal (fun _ => None)
         (PyList ["E4:0.5"; "D4:0.5"]) default_multipliers
         (fst (play_note "E44" (Finite 0.5) default_player)))
  = Raise (ValueError "need at least one array to concatenate").
Proof.
  apply (tune_after_failed_note_raises float_of_decimal (fun _ => None)
           default_multipliers ["E4:0.5"; "D4:0.5"] "E44" (Finite 0.5)
           default_player); [discriminate | reflexivity].
Defined.

(** * Further properties of the synthesizer *)

Section SynthesizerOutcome.

Local Open Scope R_scope.

Lemma generate_note_waveform_no_multiplier (p : Player)
    (duration : pyfloat) (num : Z) :
  sample_count duration = Ok num -> (0 <= num)%Z ->
  generate_note_waveform p duration []
  = Raise (TypeError "object of type 'numpy.float64' has no len()").
Proof.
  intros Hcount H. unfold generate_note_waveform. rewrite Hcount.
  destruct (linspace_ok 0 (real_of_float duration) _ H) as [t ->].
  reflexivity.
Qed.

(** [int(duration * self.rate)] raises on the infinities and on NaN, and
    on a finite duration only when the product is beyond the doubles. *)
Lemma sample_count_raises (duration : pyfloat) (e : exn) :
  sample_count duration = Raise e ->
  match duration with
  | NaN => e = ValueError "cannot convert float NaN to integer"
  | _ => e = OverflowError "cannot convert float infinity to integer"
  end.
Proof.
  unfold sample_count, float_mul, int_of_float.
  destruct duration as [d|[|]|]; cbn; try (intros [= <-]; reflexivity).
  unfold round_double.
  destruct (Qnum (d * inject_Z rate)) as [|n|n].
  - discriminate.
  - destruct (Float.round_positive n _) as [r|];
      [destruct (Qeq_bool _ _); discriminate | intros [= <-]; reflexivity].
  - destruct (Float.round_positive n _) as [r|];
      [destruct (Qeq_bool _ _); discriminate | intros [= <-]; reflexivity].
Qed.

(** X14.  The synthesizer returns a buffer exactly when
    [int(duration * 44100)], taken of the product as a double, yields a
    count of at least 1 and there is at least one multiplier; the buffer
    then holds that many samples.  Otherwise it raises: the exception of
    [int] ([OverflowError] on an infinite duration and on a product beyond
    the doubles, [ValueError] on NaN); [ValueError] from [np.linspace],
    whose text names the count, on a negative count; [ValueError] from
    [np.max] on a count of 0 with a multiplier; and [TypeError] when there
    is no multiplier and the count is not negative. *)
Theorem synthesizer_returns_a_buffer_iff (p : Player) (duration : pyfloat)
    (mults : list R) :
  ((exists audio, generate_note_waveform p duration mults = Ok audio) <->
   exists num, sample_count duration = Ok num /\ (0 < num)%Z /\ mults <> [])
  /\ (forall audio num,
        generate_note_waveform p duration mults = Ok audio ->
        sample_count duration = Ok num ->
        length audio = Z.to_nat num)
  /\ (forall e,
        sample_count duration = Raise e ->
        generate_note_waveform p duration mults = Raise e
        /\ match duration with
           | NaN => e = ValueError "cannot convert float NaN to integer"
           | _ => e = OverflowError "cannot convert float infinity to integer"
           end)
  /\ (forall num,
        sample_count duration = Ok num -> (num < 0)%Z ->
        generate_note_waveform p duration mults
        = Raise (ValueError
            ("Number of samples, "
             ++ DecimalString.NilZero.string_of_int (Z.to_int num)
             ++ ", must be non-negative.")))
  /\ (sample_count duration = Ok 0%Z -> mults <> [] ->
      generate_note_waveform p duration mults
      = Raise (ValueError
          "zero-size array to reduction operation maximum which has no identity"))
  /\ (forall num,
        sample_count duration = Ok num -> (0 <= num)%Z -> mults = [] ->
        generate_note_waveform p duration mults
        = Raise (TypeError "object of type 'numpy.float64' has no len()")).
Proof.
  assert (Hneg : forall num, sample_count duration = Ok num -> (num < 0)%Z ->
            generate_note_waveform p duration mults
            = Raise (ValueError
                ("Number of samples, "
                 ++ DecimalString.NilZero.string_of_int (Z.to_int num)
                 ++ ", must be non-negative."))).
  { intros num Hc H. unfold generate_note_waveform. rewrite Hc.
    now rewrite linspace_negative. }
  assert (Hraise : forall e, sample_count duration = Raise e ->
            generate_note_waveform p duration mults = Raise e).
  { intros e Hc. unfold generate_note_waveform. now rewrite Hc. }
  split; [|split; [|split; [|split; [|split]]]].
  - split.
    + intros (audio & H).
      destruct (sample_count duration) as [num|e] eqn:Hc;
        [|rewrite (Hraise e eq_refl) in H; discriminate].
      exists num. split; [reflexivity|].
      destruct (Z.lt_trichotomy num 0) as [Hlt | [Hz | Hgt]].
      * rewrite (Hneg num eq_refl Hlt) in H. discriminate.
      * destruct mults as [|i ms].
        { rewrite (generate_note_waveform_no_multiplier p duration num Hc)
            in H by lia.
          discriminate. }
        destruct (generate_note_waveform_samples p duration i ms num Hc)
          as (_ & H0 & _).
        rewrite (H0 Hz) in H. discriminate.
      * split; [exact Hgt|]. intros ->.
        rewrite (generate_note_waveform_no_multiplier p duration num Hc)
          in H by lia.
        discriminate.
    + intros (num & Hc & Hd & Hm).
      destruct mults as [|i ms]; [congruence|].
      destruct (generate_note_waveform_samples p duration i ms num Hc)
        as (_ & _ & Hpos).
      destruct (Hpos Hd) as (audio & Ha & _). eauto.
  - intros audio num H Hc.
    destruct (Z.lt_trichotomy num 0) as [Hlt | [Hz | Hgt]].
    + rewrite (Hneg num Hc Hlt) in H. discriminate.
    + destruct mults as [|i ms].
      { rewrite (generate_note_waveform_no_multiplier p duration num Hc)
          in H by lia.
        discriminate. }
      destruct (generate_note_waveform_samples p duration i ms num Hc)
        as (_ & H0 & _).
      rewrite (H0 Hz) in H. discriminate.
    + destruct mults as [|i ms].
      { rewrite (generate_note_waveform_no_multiplier p duration num Hc)
          in H by lia.
        discriminate. }
      destruct (generate_note_waveform_samples p duration i ms num Hc)
        as (_ & _ & Hpos).
      destruct (Hpos Hgt) as (audio' & Ha & Hl).
      rewrite Ha in H. injection H as <-. exact Hl.
  - intros e Hc. split; [now apply Hraise | now apply sample_count_raises].
  - exact Hneg.
  - intros Hc Hm. destruct mults as [|i ms]; [congruence|].
    destruct (generate_note_waveform_samples p duration i ms 0 Hc)
      as (_ & H0 & _).
    now apply H0.
  - intros num Hc Hz ->.
    now apply (generate_note_waveform_no_multiplier p duration num).
Qed.

Lemma synthesizer_returns_a_buffer_iff_witness :
  (exists audio,
     generate_note_waveform default_player (Finite 0.001) [1; 2] = Ok audio)
  /\ generate_note_waveform default_player (Finite (-1)) [1; 2]
     = Raise (ValueError "Number of samples, -44100, must be non-negative.")
  /\ generate_note_waveform default_player (Finite 1) []
     = Raise (TypeError "object of type 'numpy.float64' has no len()")
  /\ generate_note_waveform default_player (Finite (inject_Z (10 ^ 305)))
       [1; 2]
     = Raise (OverflowError "cannot convert float infinity to integer").
Proof.
  destruct (synthesizer_returns_a_buffer_iff default_player (Finite 0.001)
              [1; 2]) as (Hiff & _).
  destruct (synthesizer_returns_a_buffer_iff default_player (Finite (-1))
              [1; 2]) as (_ & _ & _ & Hneg & _).
  destruct (synthesizer_returns_a_buffer_iff default_player (Finite 1) [])
    as (_ & _ & _ & _ & _ & Hnone).
  destruct (synthesizer_returns_a_buffer_iff default_player
              (Finite (inject_Z (10 ^ 305))) [1; 2])
    as (_ & _ & Hover & _).
  split; [|split; [|split]].
  - apply Hiff. exists 44%Z.
    split; [reflexivity|]. split; [reflexivity | discriminate].
  - apply (Hneg (-44100)%Z); reflexivity.
  - apply (Hnone 44100%Z); [reflexivity | discriminate | reflexivity].
  - apply (Hover (OverflowError "cannot convert float infinity to integer")).
    vm_compute. reflexivity.
Defined.

End SynthesizerOutcome.

Section SampleRange.

Local Open Scope R_scope.

(** The synthesizer is its two stages in sequence. *)
Lemma generate_note_waveform_stages (p : Player) (duration : pyfloat)
    (mults : list R) :
  generate_note_waveform p duration mults
  = match sample_count duration with
    | Raise e => Raise e
    | Ok num =>
        match Np.linspace 0 (real_of_float duration) num with
        | Raise e => Raise e
        | Ok t =>
            match averaged_waves p t mults with
            | Np.Vec audio => normalize_and_quantize p audio
            | _ =>
                Raise (TypeError "object of type 'numpy.float64' has no len()")
            end
        end
    end.
Proof. reflexivity. Qed.

Lemma fold_Rmax_ge_init (xs : list R) (x : R) : x <= fold_left Rmax xs x.
Proof.
  revert x. induction xs as [|y xs IH]; intros x; simpl; [lra|].
  eapply Rle_trans; [apply (Rmax_l x y) | apply IH].
Qed.

Lemma fold_Rmax_ge_In (xs : list R) (x y : R) :
  In y xs -> y <= fold_left Rmax xs x.
Proof.
  revert x. induction xs as [|z xs IH]; intros x; simpl; [tauto|].
  intros [-> | H].
  - eapply Rle_trans; [apply (Rmax_r x y) | apply fold_Rmax_ge_init].
  - now apply IH.
Qed.

Lemma amax_bounds (v : list R) (peak x : R) :
  Np.amax v = Ok peak -> In x v -> x <= peak.
Proof.
  destruct v as [|y ys]; [discriminate|]. simpl. intros [= <-] [-> | H].
  - apply fold_Rmax_ge_init.
  - now apply fold_Rmax_ge_In.
Qed.

Lemma Rtrunc_range (x : R) (n : Z) :
  (0 <= n)%Z -> - IZR n <= x <= IZR n -> (- n <= Np.Rtrunc x <= n)%Z.
Proof.
  intros Hn [Hlo Hhi]. unfold Np.Rtrunc.
  destruct (Rle_dec 0 x) as [Hx|Hx].
  - destruct (base_Int_part x) as [H1 H2].
    split.
    + assert (-1 < IZR (Int_part x)) by lra.
      apply (lt_IZR (-1)) in H. lia.
    + apply le_IZR. lra.
  - destruct (base_Int_part (- x)) as [H1 H2].
    assert (Ha : (Int_part (- x) <= n)%Z) by (apply le_IZR; lra).
    assert (Hb : -1 < IZR (Int_part (- x))) by lra.
    apply (lt_IZR (-1)) in Hb. lia.
Qed.

Lemma fade_in_gain_range (i : nat) : 0 <= fade_in_gain i <= 1.
Proof.
  destruct (Nat.lt_ge_cases i fade) as [H|H].
  - rewrite fade_in_gain_ramp by assumption.
    pose proof (pos_INR i) as H0.
    apply lt_INR in H. rewrite (INR_IZR_INZ fade) in H.
    change (IZR (Z.of_nat fade)) with 800 in H. lra.
  - rewrite fade_in_gain_outside by assumption. lra.
Qed.

Lemma fade_out_gain_range (n i : nat) :
  (fade <= n)%nat -> 0 <= fade_out_gain n i <= 1.
Proof.
  intros Hn.
  destruct (Nat.lt_ge_cases i (n - fade)) as [H|H].
  - rewrite fade_out_gain_outside by assumption. lra.
  - destruct (Nat.lt_ge_cases i n) as [Hi|Hi].
    + rewrite fade_out_gain_ramp by lia.
      pose proof (pos_INR (i - (n - fade))) as H0.
      assert (Hk : (i - (n - fade) < fade)%nat) by lia.
      apply lt_INR in Hk. rewrite (INR_IZR_INZ fade) in Hk.
      change (IZR (Z.of_nat fade)) with 800 in Hk. lra.
    + unfold fade_out_gain.
      destruct (Nat.ltb_spec i (n - fade)); [lra|].
      rewrite nth_overflow by (rewrite length_map, fade_out_length; lia).
      lra.
Qed.

(** The fade never raises the magnitude of a sample. *)
Lemma fade_step_bounded (audio : list R) (b : R) :
  0 <= b ->
  (forall x, In x audio -> Rabs x <= b) ->
  forall y, In y (fade_step audio) -> Rabs y <= b.
Proof.
  intros Hb Haudio y Hy.
  destruct (Nat.lt_ge_cases fade (length audio)) as [Hlen|Hlen].
  - destruct (In_nth _ _ 0 Hy) as (i & Hi & <-).
    rewrite fade_step_length in Hi.
    rewrite fade_step_nth by assumption.
    pose proof (fade_in_gain_range i) as Hin.
    pose proof (fade_out_gain_range (length audio) i ltac:(lia)) as Hout.
    assert (Hx : Rabs (nth i audio 0) <= b)
      by (apply Haudio, nth_In; exact Hi).
    rewrite !Rabs_mult.
    rewrite (Rabs_pos_eq (fade_in_gain i)) by lra.
    rewrite (Rabs_pos_eq (fade_out_gain (length audio) i)) by lra.
    pose proof (Rabs_pos (nth i audio 0)) as Hpos.
    assert (H1 : Rabs (nth i audio 0) * fade_in_gain i
                 <= Rabs (nth i audio 0)) by nra.
    assert (H2 : 0 <= Rabs (nth i audio 0) * fade_in_gain i) by nra.
    nra.
  - unfold fade_step in Hy.
    destruct (Nat.ltb_spec fade (length audio)); [lia|].
    now apply Haudio.
Qed.

(** X15.  With a volume from 0 to 1 and an averaged wave that is not
    zero everywhere, every sample the second stage produces lies from
    -32767 to 32767: the conversion to 16-bit integers never leaves the
    range of the type. *)
Theorem samples_fit_sixteen_bits (p : Player) (audio : list R)
    (samples : list Z) :
  (0 <= volume p <= 1)%Q ->
  (exists x, In x audio /\ x <> 0) ->
  normalize_and_quantize p audio = Ok samples ->
  length samples = length audio
  /\ Forall (fun s => (-32767 <= s <= 32767)%Z) samples.
Proof.
  intros [Hv0 Hv1] (x0 & Hx0 & Hnz) H.
  unfold normalize_and_quantize in H.
  destruct (Np.amax (map Rabs audio)) as [peak|e] eqn:Hpeak; [|discriminate].
  injection H as <-.
  split; [now rewrite length_map, fade_step_length, !length_map|].
  assert (Hpos : 0 < peak).
  { apply Rlt_le_trans with (Rabs x0); [now apply Rabs_pos_lt|].
    apply (amax_bounds _ _ _ Hpeak). now apply in_map. }
  assert (Hvol : 0 <= Q2R (volume p) <= 1).
  { split.
    - rewrite <- RMicromega.Q2R_0. now apply Qle_Rle.
    - rewrite <- RMicromega.Q2R_1. now apply Qle_Rle. }
  apply Forall_forall. intros s Hs.
  apply in_map_iff in Hs as (y & <- & Hy).
  unfold Np.astype_int16.
  apply (Rtrunc_range y 32767); [lia|].
  assert (Hb : Rabs y <= 32767).
  { revert y Hy. apply fade_step_bounded; [lra|].
    intros z Hz.
    apply in_map_iff in Hz as (z1 & <- & Hz1).
    apply in_map_iff in Hz1 as (z0 & <- & Hz0).
    assert (Hle : Rabs z0 <= peak)
      by (apply (amax_bounds _ _ _ Hpeak); now apply in_map).
    rewrite !Rabs_mult.
    rewrite (Rabs_pos_eq (Q2R (volume p))) by lra.
    rewrite (Rabs_pos_eq (32767 / peak))
      by (apply Rlt_le, Rdiv_lt_0_compat; lra).
    pose proof (Rabs_pos z0) as Hz0p.
    assert (Hn : Rabs z0 * (32767 / peak) <= 32767).
    { replace (Rabs z0 * (32767 / peak)) with (32767 * (Rabs z0 / peak))
        by (field; lra).
      assert (Rabs z0 / peak <= 1).
      { apply (Rmult_le_reg_r peak); [exact Hpos|].
        replace (Rabs z0 / peak * peak) with (Rabs z0) by (field; lra).
        lra. }
      nra. }
    assert (0 <= Rabs z0 * (32767 / peak)).
    { apply Rmult_le_pos; [exact Hz0p|].
      apply Rlt_le, Rdiv_lt_0_compat; lra. }
    nra. }
  unfold Rabs in Hb. destruct (Rcase_abs y); lra.
Qed.

Lemma samples_fit_sixteen_bits_witness :
  exists samples,
    normalize_and_quantize default_player [1; -2] = Ok samples
    /\ Forall (fun s => (-32767 <= s <= 32767)%Z) samples.
Proof.
  eexists. split; [reflexivity|].
  apply (samples_fit_sixteen_bits default_player [1; -2]).
  - split; discriminate.
  - exists 1. split; [left; reflexivity | lra].
  - reflexivity.
Defined.

End SampleRange.

Section FadeEnds.

Local Open Scope R_scope.

(** X16.  A faded buffer (more than 800 samples) starts at exactly 0 but
    does not end at 0: its last sample keeps 1/800 of its value.  The
    samples between the first 800 and the last 800 are not changed.  A
    buffer of exactly 800 samples is not faded. *)
Theorem fade_starts_at_zero_and_ends_above (audio : list R) :
  let n := length audio in
  ((fade < n)%nat ->
   nth 0 (fade_step audio) 0 = 0
   /\ nth (n - 1) (fade_step audio) 0 = nth (n - 1) audio 0 / 800
   /\ forall i, (fade <= i < n - fade)%nat ->
        nth i (fade_step audio) 0 = nth i audio 0)
  /\ (n = fade -> fade_step audio = audio).
Proof.
  intros n. split.
  - intros Hn. split; [|split].
    + rewrite fade_step_nth by assumption.
      rewrite fade_in_gain_ramp by (unfold fade; lia).
      rewrite INR_0. lra.
    + rewrite fade_step_nth by assumption. fold n.
      rewrite fade_in_gain_outside by (unfold fade in *; lia).
      rewrite fade_out_gain_ramp by (unfold fade in *; lia).
      replace (n - 1 - (n - fade))%nat with 799%nat
        by (unfold fade in *; lia).
      rewrite INR_IZR_INZ. change (IZR (Z.of_nat 799)) with 799. lra.
    + intros i Hi. rewrite fade_step_nth by assumption. fold n.
      rewrite fade_in_gain_outside by lia.
      rewrite fade_out_gain_outside by lia. lra.
  - intros Hn. unfold fade_step. fold n. rewrite Hn.
    now rewrite Nat.ltb_irrefl.
Qed.

Lemma fade_starts_at_zero_and_ends_above_witness :
  nth 0 (fade_step (repeat 1 801)) 0 = 0
  /\ nth 800 (fade_step (repeat 1 801)) 0 = nth 800 (repeat 1 801) 0 / 800
  /\ fade_step (repeat 1 800) = repeat 1 800.
Proof.
  pose proof (fade_starts_at_zero_and_ends_above (repeat 1 801)) as [H _].
  pose proof (fade_starts_at_zero_and_ends_above (repeat 1 800)) as [_ H'].
  rewrite repeat_length in H, H'.
  destruct H as (H0 & Hlast & _); [unfold fade; lia|].
  split; [exact H0|]. split; [exact Hlast|].
  apply H'. reflexivity.
Defined.

End FadeEnds.

Section SynthesizedFade.

Local Open Scope R_scope.

Lemma nth_astype (l : list R) (k : nat) :
  (k < length l)%nat ->
  nth k (map Np.astype_int16 l) 0%Z = Np.astype_int16 (nth k l 0).
Proof.
  intros Hk.
  rewrite (nth_indep _ 0%Z (Np.astype_int16 0)) by now rewrite length_map.
  apply map_nth.
Qed.

(** The stages the synthesizer goes through on a positive sample count:
    the time axis, the averaged vector, its peak and the buffer returned,
    which is the faded scaled vector converted to integers. *)
Lemma generate_note_waveform_faded (p : Player) (duration : pyfloat)
    (i : R) (ms : list R) (num : Z) :
  sample_count duration = Ok num -> (0 < num)%Z ->
  exists t wave peak,
    Np.linspace 0 (real_of_float duration) num = Ok t
    /\ averaged_waves p t (i :: ms) = Np.Vec wave
    /\ Np.amax (map Rabs wave) = Ok peak
    /\ length wave = Z.to_nat num
    /\ generate_note_waveform p duration (i :: ms)
       = Ok (map Np.astype_int16 (fade_step (scaled_waves p wave peak))).
Proof.
  intros Hcount Hpos.
  destruct (linspace_ok 0 (real_of_float duration) num ltac:(lia)) as [t Ht].
  pose proof (linspace_length _ _ _ _ Ht) as Hlt.
  destruct (mean_axis0_matrix (Np.zeros (length t))
              (map (fun i0 => map (fun tj => sin (2 * PI * freq p * tj * i0)) t)
                   (i :: ms))) as (wave & Hw & Hlen).
  unfold Np.zeros in Hlen. rewrite repeat_length in Hlen.
  destruct (amax_nonempty (map Rabs wave)) as [peak Hpeak].
  { destruct wave; [simpl in Hlen; lia | discriminate]. }
  assert (Hav : averaged_waves p t (i :: ms) = Np.Vec wave).
  { unfold averaged_waves. rewrite vstack_from_vector. exact Hw. }
  exists t, wave, peak.
  split; [exact Ht|]. split; [exact Hav|]. split; [exact Hpeak|].
  split; [lia|].
  rewrite generate_note_waveform_stages, Hcount, Ht, Hav.
  unfold normalize_and_quantize. rewrite Hpeak. reflexivity.
Qed.

(** C5.  The buffer the synthesizer returns is faded.  On a sample count
    [n] of more than [fade] = 800, sample [k] of the buffer is the scaled
    sample multiplied by the fade-in factor and by the fade-out factor,
    then converted to an integer.  The fade-in factor is the linear ramp
    [k / 800] on the first 800 samples, strictly increasing from 0 and
    below 1, and 1 elsewhere; the fade-out factor is the linear ramp
    [1 - j / 800] on the last 800 samples ([j] counted from the first of
    them), strictly decreasing from 1 and above 0, and 1 elsewhere.  On a
    sample count of at most 800 the buffer is the scaled vector converted
    to integers, with no fade. *)
Theorem synthesized_buffer_is_faded (p : Player) (duration : pyfloat)
    (i : R) (ms : list R) (num : Z) :
  sample_count duration = Ok num -> (0 < num)%Z ->
  let n := Z.to_nat num in
  exists t wave peak samples,
    Np.linspace 0 (real_of_float duration) num = Ok t
    /\ averaged_waves p t (i :: ms) = Np.Vec wave
    /\ Np.amax (map Rabs wave) = Ok peak
    /\ generate_note_waveform p duration (i :: ms) = Ok samples
    /\ length (scaled_waves p wave peak) = n
    /\ length samples = n
    /\ ((fade < n)%nat ->
        forall k, (k < n)%nat ->
          nth k samples 0%Z
          = Np.astype_int16
              (nth k (scaled_waves p wave peak) 0
               * fade_in_gain k * fade_out_gain n k))
    /\ ((n <= fade)%nat ->
        samples = map Np.astype_int16 (scaled_waves p wave peak))
    /\ (forall k, (k < fade)%nat ->
          fade_in_gain k = INR k / 800 /\ fade_in_gain k < 1)
    /\ fade_in_gain 0 = 0
    /\ (forall j k, (j < k < fade)%nat -> fade_in_gain j < fade_in_gain k)
    /\ (forall k, (fade <= k)%nat -> fade_in_gain k = 1)
    /\ ((fade < n)%nat ->
        (forall k, (n - fade <= k < n)%nat ->
           fade_out_gain n k = 1 - INR (k - (n - fade)) / 800
           /\ 0 < fade_out_gain n k)
        /\ fade_out_gain n (n - fade) = 1
        /\ (forall j k, (n - fade <= j < k)%nat -> (k < n)%nat ->
              fade_out_gain n k < fade_out_gain n j)
        /\ (forall k, (k < n - fade)%nat -> fade_out_gain n k = 1)).
Proof.
  intros Hcount Hpos n.
  destruct (generate_note_waveform_faded p duration i ms num Hcount Hpos)
    as (t & wave & peak & Ht & Hw & Hpeak & Hlen & Hgen).
  set (audio := scaled_waves p wave peak) in *.
  assert (Ha : length audio = n)
    by (unfold audio, scaled_waves; now rewrite !length_map).
  assert (Hbound : forall k, (k < fade)%nat -> INR k < 800).
  { intros k Hk. apply lt_INR in Hk.
    rewrite (INR_IZR_INZ fade) in Hk.
    change (IZR (Z.of_nat fade)) with 800 in Hk. exact Hk. }
  exists t, wave, peak, (map Np.astype_int16 (fade_step audio)).
  split; [exact Ht|]. split; [exact Hw|]. split; [exact Hpeak|].
  split; [exact Hgen|]. split; [exact Ha|].
  split; [now rewrite length_map, fade_step_length|].
  split.
  { intros Hn k Hk.
    rewrite nth_astype by (rewrite fade_step_length; lia).
    rewrite fade_step_nth by lia. now rewrite Ha. }
  split.
  { intros Hn. unfold fade_step.
    destruct (Nat.ltb_spec fade (length audio)); [lia | reflexivity]. }
  split.
  { intros k Hk. rewrite fade_in_gain_ramp by assumption.
    specialize (Hbound k Hk). split; [reflexivity | lra]. }
  split.
  { rewrite fade_in_gain_ramp by (unfold fade; lia). rewrite INR_0. lra. }
  split.
  { intros j k Hjk. rewrite !fade_in_gain_ramp by lia.
    assert (INR j < INR k) by (apply lt_INR; lia). lra. }
  split; [exact fade_in_gain_outside|].
  intros Hn. split.
  { intros k Hk. rewrite fade_out_gain_ramp by lia.
    specialize (Hbound (k - (n - fade))%nat ltac:(lia)).
    split; [reflexivity | lra]. }
  split.
  { rewrite fade_out_gain_ramp by (unfold fade in *; lia).
    rewrite Nat.sub_diag, INR_0. lra. }
  split.
  { intros j k Hjk Hk. rewrite !fade_out_gain_ramp by lia.
    assert (INR (j - (n - fade)) < INR (k - (n - fade)))
      by (apply lt_INR; lia).
    lra. }
  intros k Hk. now apply fade_out_gain_outside.
Qed.

Lemma synthesized_buffer_is_faded_witness :
  (exists wave peak samples,
     generate_note_waveform default_player (Finite 0.5) default_multipliers
     = Ok samples
     /\ length samples = Z.to_nat 22050
     /\ forall k, (k < Z.to_nat 22050)%nat ->
          nth k samples 0%Z
          = Np.astype_int16
              (nth k (scaled_waves default_player wave peak) 0
               * fade_in_gain k * fade_out_gain (Z.to_nat 22050) k))
  /\ (exists wave peak samples,
        generate_note_waveform default_player (Finite 0.01)
          default_multipliers = Ok samples
        /\ length samples = 441%nat
        /\ samples
           = map Np.astype_int16 (scaled_waves default_player wave peak)).
Proof.
  split.
  - destruct (synthesized_buffer_is_faded default_player (Finite 0.5) (-10)
                [-7; -4; -1; 2] 22050)
      as (t & wave & peak & samples & _ & _ & _ & Hgen & _ & Hlen & Hfade & _);
      [reflexivity | reflexivity|].
    exists wave, peak, samples.
    split; [exact Hgen|]. split; [exact Hlen|].
    apply Hfade. unfold fade. lia.
  - destruct (synthesized_buffer_is_faded default_player (Finite 0.01) (-10)
                [-7; -4; -1; 2] 441)
      as (t & wave & peak & samples & _ & _ & _ & Hgen & _ & Hlen & _ & Hraw
          & _);
      [reflexivity | reflexivity|].
    exists wave, peak, samples.
    split; [exact Hgen|]. split; [exact Hlen|].
    apply Hraw. unfold fade. simpl. lia.
Defined.

End SynthesizedFade.

(** * Further properties of the sequencer *)

Section TuneParts.

Variable float_of_str : string -> option pyfloat.
Variable mults : list R.

Local Abbreviation loop := (tune_loop float_of_str mults).
Local Abbreviation generate :=
  (fun lines p => generate_tune_waveform float_of_str lines mults p).

(** The buffers collected so far are only extended. *)
Lemma tune_loop_acc (lines : list string) (p : Player)
    (acc : list (list Z)) :
  loop lines p acc
  = match loop lines p [] with
    | (q, Ok waves) => (q, Ok (acc ++ waves)%list)
    | (q, Raise e) => (q, Raise e)
    end.
Proof.
  revert p acc. induction lines as [|line lines IH]; intros p acc.
  - simpl. now rewrite app_nil_r.
  - cbn [tune_loop].
    destruct (0 <? String.length (Str.strip line)); [|apply IH].
    destruct (parse_line float_of_str (Str.strip line)) as [note d].
    destruct (_valid_note (calc_frequency note p)); [|apply IH].
    destruct (generate_note_waveform (calc_frequency note p) d mults)
      as [wave|e]; [|reflexivity].
    rewrite (IH _ (acc ++ [wave])%list), (IH _ ([] ++ [wave])%list).
    destruct (loop lines (calc_frequency note p) []) as [q [waves|e]];
      [|reflexivity].
    cbn [app]. now rewrite <- app_assoc.
Qed.

Lemma generate_ok_inv (lines : list string) (p q : Player)
    (audio : list Z) :
  generate lines p = (q, Ok audio) ->
  exists waves, loop lines p [] = (q, Ok waves)
                /\ waves <> [] /\ audio = concat waves.
Proof.
  unfold generate_tune_waveform.
  destruct (loop lines p []) as [q' [waves|e]]; [|discriminate].
  destruct waves as [|w ws]; [discriminate|].
  intros [= <- <-]. exists (w :: ws). repeat split. discriminate.
Qed.

(** X17.  A tune in two parts: when both parts give a buffer, the second
    part taken from the player the first part leaves, the whole tune
    gives the first buffer followed by the second.  When a note of the
    first part raises, the whole tune raises the same exception and the
    second part is not read. *)
Theorem tune_of_two_parts (before after : list string) (p p1 : Player) :
  (forall p2 audio1 audio2,
     generate before p = (p1, Ok audio1) ->
     generate after p1 = (p2, Ok audio2) ->
     generate (before ++ after)%list p = (p2, Ok (audio1 ++ audio2)%list))
  /\ (forall e,
        loop before p [] = (p1, Raise e) ->
        generate (before ++ after)%list p = (p1, Raise e)).
Proof.
  split.
  - intros p2 audio1 audio2 H1 H2.
    destruct (generate_ok_inv _ _ _ _ H1) as (w1 & L1 & N1 & ->).
    destruct (generate_ok_inv _ _ _ _ H2) as (w2 & L2 & N2 & ->).
    unfold generate_tune_waveform.
    rewrite tune_loop_app, L1, tune_loop_acc, L2.
    rewrite <- concat_app.
    destruct (w1 ++ w2)%list eqn:E; [|reflexivity].
    apply app_eq_nil in E as [-> _]. congruence.
  - intros e H. unfold generate_tune_waveform.
    now rewrite tune_loop_app, H.
Qed.

End TuneParts.

Lemma tune_of_two_parts_witness :
  generate_tune_waveform float_of_decimal (["E4:0"] ++ ["D4:0.5"])%list
    default_multipliers default_player
  = (calc_frequency "E4" default_player,
     Raise (ValueError
       "zero-size array to reduction operation maximum which has no identity")).
Proof.
  destruct (tune_of_two_parts float_of_decimal default_multipliers
              ["E4:0"] ["D4:0.5"] default_player
              (calc_frequency "E4" default_player)) as [_ H].
  apply H. reflexivity.
Defined.

Section TuneAbort.

Variable float_of_str : string -> option pyfloat.
Variable mults : list R.

(** X18.  A note whose sample count [int(duration * 44100)] is 0 or
    negative is not skipped: it aborts the tune.  When the lines before
    it are read without an exception and its token resolves,
    [generate_tune_waveform] raises, whatever lines follow: [ValueError]
    from [np.linspace], whose text names the count, on a negative count;
    on a count of 0, [ValueError] from [np.max] with at least one
    multiplier and [TypeError] with none. *)
Theorem note_without_samples_aborts_tune (before after : list string)
    (line : string) (p p1 : Player) (waves : list (list Z)) (num : Z) :
  tune_loop float_of_str mults before p [] = (p1, Ok waves) ->
  Str.strip line <> "" ->
  _valid_note
    (calc_frequency (fst (parse_line float_of_str (Str.strip line))) p1)
  = true ->
  sample_count (snd (parse_line float_of_str (Str.strip line))) = Ok num ->
  (num <= 0)%Z ->
  exists e,
    snd (generate_tune_waveform float_of_str (before ++ line :: after)%list
           mults p)
    = Raise e
    /\ ((num < 0)%Z ->
        e = ValueError
              ("Number of samples, "
               ++ DecimalString.NilZero.string_of_int (Z.to_int num)
               ++ ", must be non-negative."))
    /\ (num = 0%Z -> mults <> [] ->
        e = ValueError
              "zero-size array to reduction operation maximum which has no identity")
    /\ (num = 0%Z -> mults = [] ->
        e = TypeError "object of type 'numpy.float64' has no len()").
Proof.
  intros Hbefore Hline Hok Hc Hcount.
  set (note := fst (parse_line float_of_str (Str.strip line))) in *.
  set (d := snd (parse_line float_of_str (Str.strip line))) in *.
  assert (Hstep : forall e,
            generate_note_waveform (calc_frequency note p1) d mults
            = Raise e ->
            snd (generate_tune_waveform float_of_str
                   (before ++ line :: after)%list mults p) = Raise e).
  { intros e He. unfold generate_tune_waveform.
    rewrite tune_loop_app, Hbefore. cbn [tune_loop].
    destruct (Str.strip line) as [|c s] eqn:E; [congruence|].
    cbn [String.length Nat.ltb Nat.leb].
    destruct (parse_line float_of_str (String c s)) as [note' d'].
    cbn [fst snd] in *. subst note d. rewrite Hok, He. reflexivity. }
  destruct (Z.eq_dec num 0) as [Hz|Hz].
  - destruct mults as [|i ms] eqn:Em.
    + eexists. split.
      { apply Hstep.
        apply (generate_note_waveform_no_multiplier _ d num Hc). lia. }
      split; [lia|]. split; [congruence | reflexivity].
    + destruct (generate_note_waveform_samples (calc_frequency note p1) d
                  i ms num Hc) as (_ & Hzero & _).
      eexists. split; [apply Hstep, Hzero, Hz|].
      split; [lia|]. split; [reflexivity | discriminate].
  - eexists. split.
    { apply Hstep. unfold generate_note_waveform. rewrite Hc.
      rewrite linspace_negative by lia. reflexivity. }
    split; [reflexivity|]. split; lia.
Qed.

End TuneAbort.

Section TuneNotes.

Variable float_of_str : string -> option pyfloat.
Variable i : R.
Variable ms : list R.

Local Abbreviation loop := (tune_loop float_of_str (i :: ms)).

Lemma tune_loop_playable (lines : list string) (p : Player)
    (acc : list (list Z)) :
  Forall (playable_line float_of_str) lines ->
  _valid_note p = true ->
  exists q waves,
    loop lines p acc = (q, Ok (acc ++ waves)%list)
    /\ _valid_note q = true
    /\ length waves = length lines
    /\ Z.of_nat (length (concat waves)) = total_samples float_of_str lines.
Proof.
  intros H. revert p acc.
  induction H as [|line lines (Hne & Hres & Hcount) _ IH]; intros p acc Hp.
  - exists p, []. simpl. rewrite app_nil_r. auto.
  - set (note := fst (parse_line float_of_str (Str.strip line))) in *.
    unfold line_sample_count in Hcount.
    destruct (sample_count (snd (parse_line float_of_str (Str.strip line))))
      as [num|e] eqn:Hd; [|lia].
    destruct (generate_note_waveform_samples (calc_frequency note p)
                (snd (parse_line float_of_str (Str.strip line))) i ms num Hd)
      as (_ & _ & Hgen).
    destruct (Hgen Hcount) as (wave & Hw & Hl).
    destruct (IH (calc_frequency note p) (acc ++ [wave])%list (Hres p Hp))
      as (q & waves & Hloop & Hq & Hlen & Hsum).
    exists q, (wave :: waves).
    split.
    { rewrite (tune_loop_note float_of_str (i :: ms) line lines p acc wave);
        [|exact Hne|apply Hres, Hp|exact Hw].
      fold note. rewrite Hloop, <- app_assoc. reflexivity. }
    split; [exact Hq|]. split; [simpl; now rewrite Hlen|].
    cbn [concat total_samples]. rewrite length_app, Nat2Z.inj_add, Hsum, Hl.
    unfold line_sample_count. rewrite Hd. lia.
Qed.

(** X19.  A tune of playable lines (not blank, a token that resolves, a
    duration whose sample count is at least 1), read from a raised flag
    with at least one multiplier, gives a buffer whose length is the sum
    of the sample counts [int(duration * 44100)] of its lines, each taken
    of the product as a double, and leaves the flag raised. *)
Theorem playable_tune_length (line : string) (lines : list string)
    (p : Player) :
  Forall (playable_line float_of_str) (line :: lines) ->
  _valid_note p = true ->
  exists q audio,
    generate_tune_waveform float_of_str (line :: lines) (i :: ms) p
    = (q, Ok audio)
    /\ Z.of_nat (length audio) = total_samples float_of_str (line :: lines)
    /\ _valid_note q = true.
Proof.
  intros H Hp.
  destruct (tune_loop_playable (line :: lines) p [] H Hp)
    as (q & waves & Hloop & Hq & Hlen & Hsum).
  exists q, (concat waves). unfold generate_tune_waveform.
  rewrite Hloop. cbn [app].
  destruct waves as [|w ws]; [discriminate|].
  auto.
Qed.

End TuneNotes.

Lemma note_without_samples_aborts_tune_witness :
  snd (generate_tune_waveform float_of_decimal ["E4:0"; "D4:0.5"]
         default_multipliers default_player)
  = Raise (ValueError
      "zero-size array to reduction operation maximum which has no identity").
Proof.
  destruct (note_without_samples_aborts_tune float_of_decimal
              default_multipliers [] ["D4:0.5"] "E4:0" default_player
              default_player [] 0%Z)
    as (e & H & _ & Hz & _);
    [reflexivity | discriminate | reflexivity | reflexivity | discriminate|].
  rewrite (Hz eq_refl) in H by discriminate. exact H.
Defined.

Lemma playable_tune_length_witness :
  exists q audio,
    generate_tune_waveform float_of_decimal ["E4:0.35"; " d3#:0.25 "]
      default_multipliers default_player = (q, Ok audio)
    /\ Z.of_nat (length audio) = (15434 + 11025)%Z.
Proof.
  destruct (playable_tune_length float_of_decimal (-10)%R [-7; -4; -1; 2]%R
              "E4:0.35" [" d3#:0.25 "] default_player)
    as (q & audio & H & Hl & _).
  - apply Forall_cons; [|apply Forall_cons; [|apply Forall_nil]].
    + split; [discriminate|]. split; [|reflexivity].
      intros q Hq. destruct q as [v m f b o d l]. simpl in Hq. subst b.
      reflexivity.
    + split; [discriminate|]. split; [|reflexivity].
      intros q Hq. destruct q as [v m f b o d l]. simpl in Hq. subst b.
      reflexivity.
  - reflexivity.
  - exists q, audio. split; [exact H | exact Hl].
Defined.

(** ** Blank lines and lines with several colons *)

Section TuneLines.

Variable float_of_str : string -> option pyfloat.
Variable mults : list R.

(** X20.  Blank lines count for nothing: a tune and the tune without
    its blank lines (empty, or white space only) leave the same player
    and give the same buffer or the same exception, from every player. *)
Theorem blank_lines_are_ignored (lines : list string) (p : Player) :
  generate_tune_waveform float_of_str (filter nonblank lines) mults p
  = generate_tune_waveform float_of_str lines mults p.
Proof.
  unfold generate_tune_waveform.
  assert (H : forall q acc,
            tune_loop float_of_str mults (filter nonblank lines) q acc
            = tune_loop float_of_str mults lines q acc).
  { induction lines as [|line rest IH]; intros q acc; [reflexivity|].
    cbn [filter tune_loop]. unfold nonblank at 1.
    destruct (0 <? String.length (Str.strip line)) eqn:E; [|apply IH].
    cbn [tune_loop]. rewrite E.
    destruct (parse_line float_of_str (Str.strip line)) as [note d].
    destruct (_valid_note (calc_frequency note q)); [|apply IH].
    destruct (generate_note_waveform (calc_frequency note q) d mults);
      [apply IH | reflexivity]. }
  now rewrite H.
Qed.

Lemma contains_separator (sep : ascii) (a b : string) :
  contains sep (a ++ String sep b) = true.
Proof.
  induction a as [|c a IH]; simpl.
  - now rewrite Ascii.eqb_refl.
  - rewrite IH. apply orb_true_r.
Qed.

Lemma token_has_no_colon (c : ascii) (base : R) (o : option Z)
    (a : accidental) :
  lookup (Str.upper (String c "")) note_frequencies = Some base ->
  valid_octave o ->
  contains ":" (token c o a) = false.
Proof.
  intros Hc Ho.
  assert (Hcolon : Ascii.eqb c ":" = false).
  { destruct (Ascii.eqb c ":") eqn:E; [|reflexivity].
    apply Ascii.eqb_eq in E. subst c. discriminate. }
  unfold token. cbn [contains]. rewrite Hcolon. cbn [orb].
  destruct o as [z|].
  - simpl in Ho.
    assert (Hz : (z = 0 \/ z = 1 \/ z = 2 \/ z = 3 \/ z = 4 \/ z = 5
                  \/ z = 6 \/ z = 7 \/ z = 8)%Z) by lia.
    repeat (destruct Hz as [-> | Hz]); try subst z; destruct a; reflexivity.
  - destruct a; reflexivity.
Qed.

(** X21.  A line with more than one [:] never gives a note: it is taken
    whole as the token, and no token that holds a [:] resolves, on any
    player. *)
Theorem line_with_several_colons_is_rejected (a b c : string) (q : Player) :
  contains ":" a = false -> contains ":" b = false ->
  let line := a ++ String ":" (b ++ String ":" c) in
  fst (parse_line float_of_str line) = line
  /\ _valid_note (calc_frequency (fst (parse_line float_of_str line)) q)
     = false.
Proof.
  intros Ha Hb line.
  assert (Hp : fst (parse_line float_of_str line) = line)
    by (subst line; now rewrite parse_line_more_colons).
  split; [exact Hp|]. rewrite Hp.
  destruct (_valid_note (calc_frequency line q)) eqn:E; [|reflexivity].
  exfalso.
  destruct (resolution_success_inv line q E)
    as (c' & base & o & acc & Htok & Hc & Ho).
  pose proof (token_has_no_colon c' base o acc Hc Ho) as Hno.
  rewrite <- Htok in Hno. subst line.
  rewrite contains_separator in Hno. discriminate.
Qed.

End TuneLines.

Lemma line_with_several_colons_is_rejected_witness :
  _valid_note
    (calc_frequency (fst (parse_line float_of_decimal "A::")) default_player)
  = false.
Proof.
  apply (line_with_several_colons_is_rejected float_of_decimal "A" "" ""
           default_player); reflexivity.
Defined.

(** ** [str.split] *)

(** X22.  The pieces [line.split(":")] gives hold no separator, joined by
    the separator they give the line back, and there is exactly one
    piece when the line holds no separator. *)
Theorem split_join_round_trip (sep : ascii) (s : string) :
  String.concat (String sep "") (Str.split sep s) = s
  /\ Forall (fun piece => contains sep piece = false) (Str.split sep s)
  /\ (length (Str.split sep s) = 1 <-> contains sep s = false).
Proof.
  induction s as [|c s (IHjoin & IHpieces & IHone)].
  - simpl. repeat split; auto.
  - cbn [Str.split contains].
    pose proof (split_nonempty sep s) as Hne.
    destruct (Ascii.eqb c sep) eqn:E.
    + apply Ascii.eqb_eq in E. subst c.
      destruct (Str.split sep s) as [|piece pieces] eqn:Es; [congruence|].
      split; [|split].
      * change (String.concat (String sep "") ("" :: piece :: pieces))
          with ("" ++ String sep ""
                ++ String.concat (String sep "") (piece :: pieces)).
        rewrite IHjoin. reflexivity.
      * constructor; [reflexivity | exact IHpieces].
      * cbn [orb]. split; [discriminate | discriminate].
    + destruct (Str.split sep s) as [|piece pieces] eqn:Es; [congruence|].
      split; [|split].
      * rewrite <- IHjoin. destruct pieces; reflexivity.
      * inversion IHpieces as [|? ? Hp Hps]; subst.
        constructor; [|exact Hps].
        cbn [contains]. now rewrite E, Hp.
      * cbn [orb length] in *. exact IHone.
Qed.

(** ** Edges of [play_note] *)

(** X23.  [play_note] on a valid token with a duration whose sample
    count [int(duration * 44100)] is 0 or negative raises [ValueError]
    and plays nothing: the frequency is stored, but nothing is waited
    for, played or printed, and the play object and the destructor sleep
    are as before. *)
Theorem play_note_without_samples_raises (c : ascii) (base : R)
    (o : option Z) (a : accidental) (duration : pyfloat) (num : Z)
    (p : Player) :
  lookup (Str.upper (String c "")) note_frequencies = Some base ->
  valid_octave o ->
  sample_count duration = Ok num ->
  (num <= 0)%Z ->
  exists msg,
    play_note (token c o a) duration p
    = (with_freq (tone_frequency base o a) (with_valid_note true p),
       Raise (ValueError msg)).
Proof.
  intros Hc Ho Hcount Hd.
  unfold play_note. rewrite token_is_not_pause.
  rewrite (calc_frequency_token c base o a (with_valid_note true p) Hc Ho
             eq_refl).
  cbn [_valid_note with_freq with_valid_note]. unfold write_stream.
  destruct (generate_note_waveform_samples
              (with_freq (tone_frequency base o a) (with_valid_note true p))
              duration (-10)%R [-7; -4; -1; 2]%R num Hcount)
    as (Hneg & Hzero & _).
  fold default_multipliers in Hneg, Hzero.
  change (generate_note_waveform _ duration default_multipliers)
    with (generate_note_waveform
            (with_freq (tone_frequency base o a) (with_valid_note true p))
            duration default_multipliers).
  destruct (Z.eq_dec num 0) as [Hz|Hz].
  - rewrite (Hzero Hz). eexists. reflexivity.
  - rewrite Hneg by lia. eexists. reflexivity.
Qed.

Lemma play_note_without_samples_raises_witness :
  exists msg,
    play_note "A" (Finite 0) default_player
    = (with_freq (tone_frequency 27.50000 None Natural) default_player,
       Raise (ValueError msg)).
Proof.
  apply (play_note_without_samples_raises "A" 27.50000%R None Natural
           (Finite 0) 0 default_player);
    [reflexivity | exact I | reflexivity | discriminate].
Defined.

(** X24.  A pause of a negative finite duration raises [ValueError] in
    [time.sleep], after the wait for the previous sound and after the
    pause was printed; the destructor sleep is not reset. *)
Theorem negative_pause_raises_after_printing (d : Q) (p : Player) :
  (d < 0)%Q ->
  play_note "pause" (Finite d) p
  = (print_played_note "pause" (Finite d)
       (wait_for_prev_sound (with_valid_note true p)),
     Raise (ValueError "sleep length must be non-negative"))
  /\ _destructor_sleep (fst (play_note "pause" (Finite d) p))
     = _destructor_sleep p.
Proof.
  intros Hd.
  assert (H : play_note "pause" (Finite d) p
              = (print_played_note "pause" (Finite d)
                   (wait_for_prev_sound (with_valid_note true p)),
                 Raise (ValueError "sleep length must be non-negative"))).
  { unfold play_note. cbn [String.eqb Ascii.eqb Bool.eqb].
    unfold time_sleep. now rewrite (Qltb_lt d 0 Hd). }
  split; [exact H|]. rewrite H. cbn [fst].
  unfold print_played_note, wait_for_prev_sound.
  cbn [_play_obj with_valid_note].
  destruct (_play_obj p);
    cbn [mute_output _valid_note emit with_valid_note negb orb];
    destruct (mute_output p); reflexivity.
Qed.

Lemma negative_pause_raises_after_printing_witness :
  play_note "pause" (Finite (-1)) default_player
  = (emit (Stdout (Pausing (Finite (-1)))) default_player,
     Raise (ValueError "sleep length must be non-negative")).
Proof.
  destruct (negative_pause_raises_after_printing (-1) default_player)
    as [H _]; [reflexivity|].
  rewrite H. reflexivity.
Defined.
